(** * The replication coordinator of [main.go], embedded in Rocq

    The program is one Go file: a few global variables, three helpers
    ([loadDB], [saveDB], [haversine]) and [main], which registers the HTTP
    handlers [/list], [/upload], [/nearest/], [/file/] and [/delete/].

    Modelling choices.
    - Go's [map[string]FileMeta] is a [gmap string FileMeta.t]; slices are
      lists; [int64] values that the program only copies are in [Z].
    - [float64] is Rocq's primitive binary64 type.  [math.Sin], [math.Cos]
      and [math.Asin] do not exist on it, so [haversine] takes them from a
      record [Math].
    - The outside world (clock, storage nodes, file system) is an oracle
      [Env] indexed by the number of interactions made so far; a handler is
      a state-passing function over [State].
    - A JSON file is represented by what [json.Unmarshal] stores from it
      ([FileContent]); the bytes themselves are not modelled, and what
      [json.MarshalIndent] writes for a map is read back through [reread].
    - [http.NewRequest] fails on a URL that does not parse; which URLs parse
      is the parameter [NewRequest_ok].  The source discards that error and
      uses the nil request, which panics: a handler that panics gives no
      response ([None]) and stops where it is.
    - Handlers are run one at a time.  [io.ReadAll]'s discarded error only
      shortens [data], and the multipart writer on a buffer does not
      fail. *)

From Stdlib Require Import ZArith PrimFloat SpecFloat FloatOps FloatAxioms.
From stdpp Require Import gmap strings list fin_maps pretty.

Set Warnings "-inexact-float".
Local Open Scope Z_scope.

(* ===================== STRUCTS ===================== *)

Module StorageNode.
Record t := mk {
  ID  : string;
  URL : string;
  Lat : float;
  Lon : float
}.
End StorageNode.

Module FileMeta.
Record t := mk {
  ID         : string;
  Filename   : string;
  Size       : Z;
  Replicated : list string;
  CreatedAt  : string
}.
End FileMeta.

(* ===================== OUTSIDE WORLD ===================== *)

(** What [client.Do] hands back: [err != nil], or a response with a status. *)
Inductive Reply :=
| TransportError
| Resp (StatusCode : Z).

(** The body of an outgoing request: none, or the multipart form built in
    the upload loop (text fields, then one file part). *)
Inductive Body :=
| NoBody
| Multipart (fields : list (string * string))
            (part filename : string) (content : list Byte.byte).

Record Request := mkRequest {
  Method  : string;
  Target  : string;
  Payload : Body
}.

(** A JSON file on disk, seen through [os.ReadFile] and [json.Unmarshal]:
    - [Absent]: there is no file, [os.ReadFile] fails;
    - [Malformed]: not valid JSON, [json.Unmarshal] fails and stores nothing;
    - [Null]: the document [null], which sets a map or a slice to nil;
    - [Doc a]: a document that decodes, without error, to [a];
    - [Mistyped a]: valid JSON with a value of the wrong type somewhere:
      [json.Unmarshal] stores what it can, [a], and returns an error. *)
Inductive FileContent (A : Type) :=
| Absent
| Malformed
| Null
| Doc (a : A)
| Mistyped (a : A).
Arguments Absent {A}.
Arguments Malformed {A}.
Arguments Null {A}.
Arguments Doc {A} a.
Arguments Mistyped {A} a.

(** How [os.WriteFile] ends: it opens the file with [O_TRUNC], writes and
    closes.  When the open fails the file is untouched; when the write
    fails the file is cut short; when only the close fails everything was
    written and an error is returned all the same. *)
Inductive WriteResult :=
| WriteOk
| OpenFailed
| WriteFailed
| CloseFailed.

(** The environment's answer to the program's [k]-th interaction with it. *)
Record Env := mkEnv {
  now      : nat -> Z;                 (* time.Now().UnixNano() *)
  respond  : nat -> Request -> Reply;  (* client.Do(req) *)
  write    : nat -> WriteResult        (* os.WriteFile(dbFile, b, 0644) *)
}.

(** [math.Sin], [math.Cos], [math.Asin]. *)
Record Math := mkMath {
  Sin  : float -> float;
  Cos  : float -> float;
  Asin : float -> float
}.

(** The two library functions whose result the program's control flow or
    its file depends on:
    - [NewRequest_ok method url]: [http.NewRequest(method, url, body)]
      returns a request, that is, the method is valid and the URL parses;
    - [reread m]: what [json.Unmarshal] stores, into an empty map, from the
      bytes of [json.MarshalIndent(m, "", "  ")]. *)
Record Lib := mkLib {
  NewRequest_ok : string -> string -> bool;
  reread : gmap string FileMeta.t -> gmap string FileMeta.t
}.

(* ===================== GLOBALS ===================== *)

(** The globals [nodes] and [files], the file named by [dbFile], and the
    trace of the interactions with the environment: how many there were
    ([tick]) and which requests went out ([sent]). *)
Record State := mkState {
  nodes  : list StorageNode.t;
  files  : gmap string FileMeta.t;
  dbFile : FileContent (gmap string FileMeta.t);
  tick   : nat;
  sent   : list Request
}.

Definition set_files (m : gmap string FileMeta.t) (s : State) : State :=
  mkState (nodes s) m (dbFile s) (tick s) (sent s).

Definition set_dbFile (d : FileContent (gmap string FileMeta.t)) (s : State)
  : State :=
  mkState (nodes s) (files s) d (tick s) (sent s).

Definition step (s : State) : State :=
  mkState (nodes s) (files s) (dbFile s) (S (tick s)) (sent s).

Definition log_request (req : Request) (s : State) : State :=
  mkState (nodes s) (files s) (dbFile s) (tick s) (sent s ++ [req]).

(** Handlers thread the state. *)
Definition M (A : Type) : Type := State -> A * State.

Global Instance M_ret : MRet M := fun A a s => (a, s).
Global Instance M_bind : MBind M :=
  fun A B k m s => let '(a, s') := m s in k a s'.

Definition get : M State := fun s => (s, s).
Definition modify (f : State -> State) : M unit := fun s => (tt, f s).

Definition time_Now_UnixNano (E : Env) : M Z :=
  fun s => (now E (tick s), step s).

Definition client_Do (E : Env) (req : Request) : M Reply :=
  fun s => (respond E (tick s) req, step (log_request req s)).

(** [http.NewRequest(method, url, body)], given the request it would
    build. *)
Definition http_NewRequest (lib : Lib) (req : Request) : option Request :=
  if NewRequest_ok lib (Method req) (Target req) then Some req else None.

(** The file after [os.WriteFile] ended with [r] on the encoding of [m].  A
    file cut short is not valid JSON: the encoding of a map ends with its
    closing brace. *)
Definition file_after (lib : Lib) (r : WriteResult)
    (m : gmap string FileMeta.t) (old : FileContent (gmap string FileMeta.t))
  : FileContent (gmap string FileMeta.t) :=
  match r with
  | WriteOk | CloseFailed => Doc (reread lib m)
  | WriteFailed => Malformed
  | OpenFailed => old
  end.

(** [os.WriteFile(dbFile, b, 0644)] with [b] the encoding of [m]; the
    result is whether the error is nil. *)
Definition os_WriteFile (lib : Lib) (E : Env) (m : gmap string FileMeta.t)
  : M bool :=
  fun s =>
    let r := write E (tick s) in
    (match r with WriteOk => true | _ => false end,
     step (set_dbFile (file_after lib r m (dbFile s)) s)).

(* ===================== UTILS ===================== *)

(** [json.Unmarshal(b, &files)] on a non-nil map keeps the entries already
    there and stores the decoded ones over them, also when it goes on to
    return a type error; on a syntax error it stores nothing; on [null] it
    sets [files] to nil, which reads like the empty map (an assignment to a
    nil map would panic, but nothing in the program runs after [loadDB]:
    it has no caller).  [os.ReadFile] fails on a missing file.  Both errors
    are dropped. *)
Definition loadDB : M unit :=
  s ← get;
  match dbFile s with
  | Doc m => modify (set_files (m ∪ files s))
  | Mistyped m => modify (set_files (m ∪ files s))
  | Null => modify (set_files ∅)
  | Malformed => mret tt
  | Absent => mret tt
  end.

Definition saveDB (lib : Lib) (E : Env) : M unit :=
  s ← get;
  _ ← os_WriteFile lib E (files s);
  mret tt.

Definition Pi : float := 0x1.921fb54442d18p+1%float.

Definition haversine (math : Math) (aLat aLon bLat bLon : float) : float :=
  let R2 := 12742%float in (* the constant 2 * R, R = 6371 *)
  let dLat := ((bLat - aLat) * Pi / 180)%float in
  let dLon := ((bLon - aLon) * Pi / 180)%float in
  let la1 := (aLat * Pi / 180)%float in
  let la2 := (bLat * Pi / 180)%float in
  let h := (Sin math (dLat / 2) * Sin math (dLat / 2) +
            Sin math (dLon / 2) * Sin math (dLon / 2)
              * Cos math la1 * Cos math la2)%float in
  (R2 * Asin math (PrimFloat.sqrt h))%float.

(** [strings.HasPrefix], [s[n:]], [strings.TrimPrefix] and
    [fmt.Sprintf("%d", _)]. *)
Definition HasPrefix (s prefix : string) : bool := String.prefix prefix s.

Fixpoint slice_from (n : nat) (s : string) : string :=
  match n, s with
  | O, _ => s
  | S n', String _ s' => slice_from n' s'
  | S _, EmptyString => EmptyString
  end.

Definition TrimPrefix (s prefix : string) : string :=
  if HasPrefix s prefix then slice_from (String.length prefix) s else s.

Definition Sprintf_d (z : Z) : string := pretty z.

(* ===================== MAIN ===================== *)

(** What a handler wrote to its [http.ResponseWriter]. *)
Inductive Response :=
| Error (msg : string) (code : Z)     (* http.Error(w, msg, code) *)
| NotFound                            (* http.NotFound(w, r) *)
| WriteHeader (code : Z)              (* w.WriteHeader(code) *)
| EncodeFiles (m : gmap string FileMeta.t)
| EncodeNode (n : StorageNode.t)      (* json.NewEncoder(w).Encode(best) *)
| HttpRedirect (url : string) (code : Z) (* http.Redirect(w, r, url, code) *)
| WriteBody (body : string).          (* w.Write(body) *)

Definition StatusCode (r : Response) : Z :=
  match r with
  | Error _ code => code
  | NotFound => 404
  | WriteHeader code => code
  | EncodeFiles _ => 200
  | EncodeNode _ => 200
  | HttpRedirect _ code => code
  | WriteBody _ => 200
  end.

Definition StatusServiceUnavailable : Z := 503.
Definition StatusCreated : Z := 201.
Definition StatusTemporaryRedirect : Z := 307.

(* ---------- LIST FILES ---------- *)

Definition handle_list : M Response :=
  s ← get;
  mret (EncodeFiles (files s)).

(* ---------- UPLOAD ---------- *)

Definition replicate_request (n : StorageNode.t) (id filename : string)
    (data : list Byte.byte) : Request :=
  mkRequest "POST" (StorageNode.URL n +:+ "/replicate")
    (Multipart [("id", id); ("filename", filename)] "file" filename data).

(** The loop [for _, n := range nodes] of the upload handler, with the
    slice [rep] built so far.  [req, _ := http.NewRequest(...)] leaves [req]
    nil when the URL does not parse, and [req.Header.Set] on a nil request
    panics: the loop then ends with [None], the nodes after [n] untried. *)
Fixpoint replicate_loop (lib : Lib) (E : Env) (id filename : string)
    (data : list Byte.byte) (ns : list StorageNode.t) (rep : list string)
  : M (option (list string)) :=
  match ns with
  | [] => mret (Some rep)
  | n :: ns' =>
      match http_NewRequest lib (replicate_request n id filename data) with
      | None => mret None
      | Some req =>
          r ← client_Do E req;
          match r with
          | TransportError => replicate_loop lib E id filename data ns' rep
          | Resp code =>
              if code =? 201
              then replicate_loop lib E id filename data ns'
                     (rep ++ [StorageNode.ID n])
              else replicate_loop lib E id filename data ns' rep
          end
      end
  end.

(** [form] is the result of [r.FormFile("file")]: the part's file name and
    its bytes, or [None] when the call returns an error.  The result is
    what the handler wrote, or [None] when it panicked. *)
Definition handle_upload (lib : Lib) (E : Env)
    (form : option (string * list Byte.byte)) : M (option Response) :=
  match form with
  | None => mret (Some (Error "file required" 400))
  | Some (filename, data) =>
      t ← time_Now_UnixNano E;
      let id := Sprintf_d t in
      s ← get;
      rep ← replicate_loop lib E id filename data (nodes s) [];
      match rep with
      | None => mret None
      | Some rep =>
          s' ← get;
          _ ← modify (set_files
                (<[id := FileMeta.mk id filename (Z.of_nat (length data))
                           rep ""]> (files s')));
          _ ← saveDB lib E;
          mret (Some (WriteHeader StatusCreated))
      end
  end.

(* ---------- NEAREST ---------- *)

(** The two nested loops of the nearest handler over [(best, bestD)]. *)
Definition nearest_inner (math : Math) (lat lon : float) (n : StorageNode.t)
    (acc : StorageNode.t * float) (rid : string) : StorageNode.t * float :=
  if String.eqb (StorageNode.ID n) rid then
    let d := haversine math lat lon (StorageNode.Lat n) (StorageNode.Lon n) in
    if PrimFloat.ltb d (snd acc) then (n, d) else acc
  else acc.

Definition nearest_outer (math : Math) (lat lon : float)
    (replicated : list string) (acc : StorageNode.t * float)
    (n : StorageNode.t) : StorageNode.t * float :=
  fold_left (nearest_inner math lat lon n) replicated acc.

Definition handle_nearest (math : Math) (path : string) : M Response :=
  let id := TrimPrefix path "/nearest/" in
  s ← get;
  match nodes s with
  | [] => mret (Error "no storage nodes configured" StatusServiceUnavailable)
  | n0 :: _ =>
      match files s !! id with
      | None => mret NotFound
      | Some meta =>
          if (length (FileMeta.Replicated meta) =? 0)%nat
          then mret (Error "file not replicated yet" StatusServiceUnavailable)
          else
            let lat := 1.3521%float in
            let lon := 103.8198%float in
            let '(best, _) :=
              fold_left (nearest_outer math lat lon (FileMeta.Replicated meta))
                        (nodes s) (n0, 1e18%float) in
            mret (EncodeNode best)
      end
  end.

(* ---------- FILE (REDIRECT) ---------- *)

Definition handle_file (path : string) : M Response :=
  s ← get;
  match nodes s with
  | [] => mret (Error "no storage nodes configured" StatusServiceUnavailable)
  | n0 :: _ =>
      let id := TrimPrefix path "/file/" in
      mret (HttpRedirect (StorageNode.URL n0 +:+ "/file/" +:+ id)
                     StatusTemporaryRedirect)
  end.

(* ---------- DELETE ---------- *)

Definition delete_request (n : StorageNode.t) (id : string) : Request :=
  mkRequest "DELETE" (StorageNode.URL n +:+ "/delete/" +:+ id) NoBody.

(** The loop of the delete handler.  [client.Do] on the nil request that
    [http.NewRequest] leaves for a URL that does not parse panics: the loop
    then ends with [None]. *)
Fixpoint delete_loop (lib : Lib) (E : Env) (id : string)
    (ns : list StorageNode.t) : M (option unit) :=
  match ns with
  | [] => mret (Some tt)
  | n :: ns' =>
      match http_NewRequest lib (delete_request n id) with
      | None => mret None
      | Some req =>
          _ ← client_Do E req;
          delete_loop lib E id ns'
      end
  end.

Definition handle_delete (lib : Lib) (E : Env) (path : string)
  : M (option Response) :=
  let id := TrimPrefix path "/delete/" in
  s ← get;
  done ← delete_loop lib E id (nodes s);
  match done with
  | None => mret None
  | Some _ =>
      s' ← get;
      _ ← modify (set_files (delete id (files s')));
      _ ← saveDB lib E;
      mret (Some (WriteBody "deleted"))
  end.

(* ---------- process start ---------- *)

(** [main] up to [http.ListenAndServe]: the nodes file is read and decoded
    ([log.Fatal] when either fails, here [None]; the document [null] decodes
    to no node); [files] keeps the value of its initialiser, the empty map.
    [main] does not call [loadDB]. *)
Definition main (nodesFile : FileContent (list StorageNode.t))
    (db : FileContent (gmap string FileMeta.t)) : option State :=
  match nodesFile with
  | Doc ns => Some (mkState ns ∅ db 0 [])
  | Null => Some (mkState [] ∅ db 0 [])
  | Mistyped _ => None
  | Malformed => None
  | Absent => None
  end.

(* ---------- http.ListenAndServe ---------- *)

(** A request, as the mux hands it to one of the handlers that [main]
    registers (the file server on [/] is left out), and the server working
    through a list of them.  A call is answered with what its handler
    wrote, or not at all ([None]) when the handler panicked. *)
Inductive Call :=
| CallList
| CallUpload (form : option (string * list Byte.byte))
| CallNearest (path : string)
| CallFile (path : string)
| CallDelete (path : string).

Definition serve (math : Math) (lib : Lib) (E : Env) (c : Call)
  : M (option Response) :=
  match c with
  | CallList => r ← handle_list; mret (Some r)
  | CallUpload form => handle_upload lib E form
  | CallNearest path => r ← handle_nearest math path; mret (Some r)
  | CallFile path => r ← handle_file path; mret (Some r)
  | CallDelete path => handle_delete lib E path
  end.

Fixpoint serve_all (math : Math) (lib : Lib) (E : Env) (cs : list Call)
  : M (list (option Response)) :=
  match cs with
  | [] => mret []
  | c :: cs' =>
      r ← serve math lib E c;
      rs ← serve_all math lib E cs';
      mret (r :: rs)
  end.

(* ===================== VOCABULARY OF THE PROPERTIES ===================== *)

(** The distance that the nearest handler computes for node [n]. *)
Definition distance (math : Math) (n : StorageNode.t) : float :=
  haversine math 1.3521%float 103.8198%float
            (StorageNode.Lat n) (StorageNode.Lon n).

(** What every record written by the upload handler looks like, for the
    node list [ns]. *)
Definition record_ok (ns : list StorageNode.t) (k : string) (r : FileMeta.t)
  : Prop :=
  FileMeta.ID r = k
  ∧ (∃ z, k = Sprintf_d z)
  ∧ 0 ≤ FileMeta.Size r
  ∧ FileMeta.Replicated r `sublist_of` (StorageNode.ID <$> ns)
  ∧ FileMeta.CreatedAt r = "".

Definition files_ok (s : State) : Prop :=
  map_Forall (record_ok (nodes s)) (files s).

(** A request that goes to a configured node: the [POST] of the upload loop
    or the [DELETE] of the delete loop on that node's URL. *)
Definition to_configured_node (ns : list StorageNode.t) (req : Request)
  : Prop :=
  ∃ n, n ∈ ns
       ∧ (Method req = "POST" ∧ Target req = StorageNode.URL n +:+ "/replicate"
          ∨ Method req = "DELETE"
            ∧ ∃ id, Target req = StorageNode.URL n +:+ "/delete/" +:+ id).

(** Every request of the upload loop, respectively of the delete loop for
    [id], can be built for the nodes [ns]. *)
Definition replicable (lib : Lib) (ns : list StorageNode.t) : Prop :=
  Forall (λ n, NewRequest_ok lib "POST" (StorageNode.URL n +:+ "/replicate")
               = true) ns.

Definition deletable (lib : Lib) (id : string) (ns : list StorageNode.t)
  : Prop :=
  Forall (λ n, NewRequest_ok lib "DELETE"
                 (StorageNode.URL n +:+ "/delete/" +:+ id) = true) ns.

(** Comparison with [==] on [float64]. *)
Definition float_eq (x y : float) : bool := PrimFloat.eqb x y.

(** The calls whose handler has no assignment to [files] and no call of
    [client.Do] or [saveDB] on its path. *)
Definition reads_only (c : Call) : bool :=
  match c with
  | CallList | CallNearest _ | CallFile _ | CallUpload None => true
  | CallUpload (Some _) | CallDelete _ => false
  end.


(** The id given to an upload that starts in state [s]: the clock is the
    handler's first interaction with the environment. *)
Definition upload_id (E : Env) (s : State) : string :=
  Sprintf_d (now E (tick s)).

(** A reply that counts as stored: a response with status 201. *)
Definition is_created (r : Reply) : bool :=
  match r with
  | Resp code => code =? 201
  | TransportError => false
  end.

(** The replies that the nodes [ns] get, in order, when the replication of
    ([id], [filename], [data]) starts at interaction [t]. *)
Definition replies_from (E : Env) (id filename : string)
    (data : list Byte.byte) (t : nat) (ns : list StorageNode.t) : list Reply :=
  imap (λ i n, respond E (t + i) (replicate_request n id filename data)) ns.

(** The ids of the nodes whose reply is a 201, in configuration order. *)
Definition acknowledged (ns : list StorageNode.t) (rs : list Reply)
  : list string :=
  (λ p, StorageNode.ID p.1) <$> filter (λ p, is_created p.2) (zip ns rs).

(* ===================== SAMPLE CONFIGURATION ===================== *)

(** Two nodes, a clock that starts at a fixed instant, and three kinds of
    cluster: every node stores, every node is unreachable, and every node
    stores while the clock returns the same reading twice. *)
Definition sgp : StorageNode.t :=
  StorageNode.mk "sgp" "http://sgp.example:9001" 1.29%float 103.85%float.
Definition fra : StorageNode.t :=
  StorageNode.mk "fra" "http://fra.example:9001" 50.11%float 8.68%float.

Definition t0 : Z := 1700000000000000000.

Definition env_healthy : Env :=
  mkEnv (λ k, t0 + Z.of_nat k) (λ _ _, Resp 201) (λ _, WriteOk).
Definition env_unreachable : Env :=
  mkEnv (λ k, t0 + Z.of_nat k) (λ _ _, TransportError) (λ _, WriteOk).
Definition env_coarse_clock : Env :=
  mkEnv (λ _, t0) (λ _ _, Resp 201) (λ _, WriteOk).

(** [sgp] cannot be reached and [fra] stores. *)
Definition env_sgp_down : Env :=
  mkEnv (λ k, t0 + Z.of_nat k)
        (λ _ req, if String.eqb (Target req) "http://sgp.example:9001/replicate"
                  then TransportError else Resp 201)
        (λ _, WriteOk).

(** Every node stores, and the metadata file cannot be opened for
    writing. *)
Definition env_disk_full : Env :=
  mkEnv (λ k, t0 + Z.of_nat k) (λ _ _, Resp 201) (λ _, OpenFailed).

(** Stand-ins for the math library near 0, for closed examples. *)
Definition math_small_angle : Math :=
  mkMath (λ x, x) (λ _, 1%float) (λ x, x).


(** A second stand-in, with the first two terms of the cosine series, for
    examples in which the two latitudes have different cosines. *)
Definition math_polynomial : Math :=
  mkMath (λ x, x) (λ x, (1 - x * x / 2)%float) (λ x, x).

(** A stand-in for the libraries: a URL parses when each of its [%] is
    followed by two hexadecimal digits (one of the rules of [url.Parse]),
    and a written map is read back as it is. *)
Definition is_hex (c : Ascii.ascii) : bool :=
  let n := Ascii.nat_of_ascii c in
  ((48 <=? n) && (n <=? 57) || (65 <=? n) && (n <=? 70)
   || (97 <=? n) && (n <=? 102))%nat.

Fixpoint escapes_ok (s : string) : bool :=
  match s with
  | EmptyString => true
  | String c rest =>
      if Ascii.eqb c (Ascii.ascii_of_nat 37) (* the character % *) then
        match rest with
        | String a (String b rest') => is_hex a && is_hex b && escapes_ok rest'
        | _ => false
        end
      else escapes_ok rest
  end.

Definition lib_sample : Lib := mkLib (λ _ url, escapes_ok url) (λ m, m).

(** A node whose URL has a bad escape. *)
Definition bad : StorageNode.t :=
  StorageNode.mk "bad" "http://bad.example/%zz" 0%float 0%float.

Definition fresh (ns : list StorageNode.t) : State := mkState ns ∅ Absent 0 [].

(** A state with a record that no node stored (["7"]) and a record whose only
    replica is on a node that is not configured any more (["8"]). *)
Definition orphan : FileMeta.t := FileMeta.mk "7" "a.txt" 3 [] "".
Definition stray : FileMeta.t := FileMeta.mk "8" "b.txt" 5 ["old"] "".
Definition sample_state : State :=
  mkState [sgp; fra] (<["7" := orphan]> (<["8" := stray]> ∅)) Absent 0 [].

(** A record stored on both nodes, listed in the order [fra], [sgp]. *)
Definition mirrored : FileMeta.t :=
  FileMeta.mk "9" "c.txt" 4 ["fra"; "sgp"] "".
Definition mirrored_state : State :=
  mkState [fra; sgp] (<["9" := mirrored]> ∅) Absent 0 [].

(** A second node at the coordinates of [sgp], and a record stored on it,
    on [sgp] and on [fra]. *)
Definition sgp2 : StorageNode.t :=
  StorageNode.mk "sgp2" "http://sgp2.example:9001" 1.29%float 103.85%float.
Definition tied_state : State :=
  mkState [fra; sgp; sgp2]
          (<["9" := FileMeta.mk "9" "c.txt" 4 ["sgp2"; "sgp"; "fra"] ""]> ∅)
          Absent 0 [].

(* ===================== PROPERTIES ===================== *)

(** ** Paths *)

Lemma HasPrefix_app (p x : string) : HasPrefix (p +:+ x) p = true.
Proof.
  unfold HasPrefix. induction p as [|a p IH]; simpl.
  - by destruct x.
  - destruct (Ascii.ascii_dec a a); [exact IH | done].
Qed.

Lemma slice_from_app (p x : string) :
  slice_from (String.length p) (p +:+ x) = x.
Proof. induction p as [|a p IH]; simpl; [by destruct x | exact IH]. Qed.

Lemma TrimPrefix_app (p x : string) : TrimPrefix (p +:+ x) p = x.
Proof. unfold TrimPrefix. by rewrite HasPrefix_app, slice_from_app. Qed.

Example TrimPrefix_nearest :
  TrimPrefix "/nearest/1700000000" "/nearest/" = "1700000000".
Proof. reflexivity. Qed.

Example TrimPrefix_other : TrimPrefix "/near" "/nearest/" = "/near".
Proof. reflexivity. Qed.

Example Sprintf_d_t0 : Sprintf_d t0 = "1700000000000000000".
Proof. vm_compute. reflexivity. Qed.

Example Sprintf_d_negative : Sprintf_d (-42) = "-42".
Proof. vm_compute. reflexivity. Qed.

(** The constant folded into [haversine] is twice the radius. *)
Example twice_R : (2 * 6371)%float = 12742%float.
Proof. reflexivity. Qed.

(** ** Running a handler *)

Ltac run :=
  unfold handle_list, handle_nearest, handle_file, handle_delete,
    handle_upload, saveDB, loadDB, os_WriteFile, time_Now_UnixNano,
    client_Do, http_NewRequest, modify, get, mbind, mret, M_bind, M_ret;
  simpl.

(** ** The nearest handler *)

Section Nearest.
Variable math : Math.
Variables lat lon : float.

Lemma nearest_inner_miss n acc rid :
  StorageNode.ID n ≠ rid → nearest_inner math lat lon n acc rid = acc.
Proof.
  intros Hne. unfold nearest_inner.
  by apply String.eqb_neq in Hne as ->.
Qed.

Lemma nearest_outer_miss replicated acc n :
  StorageNode.ID n ∉ replicated →
  nearest_outer math lat lon replicated acc n = acc.
Proof.
  unfold nearest_outer. revert acc.
  induction replicated as [|rid rs IH]; intros acc Hnot; simpl; [done|].
  apply not_elem_of_cons in Hnot as [Hne Hrs].
  rewrite nearest_inner_miss by done. by apply IH.
Qed.

(** A scan in which no node id is among the replicas changes nothing. *)
Lemma nearest_scan_miss replicated ns acc :
  Forall (λ n, StorageNode.ID n ∉ replicated) ns →
  fold_left (nearest_outer math lat lon replicated) ns acc = acc.
Proof.
  induction 1 as [|n ns Hn _ IH]; simpl; [done|].
  by rewrite nearest_outer_miss.
Qed.

End Nearest.

(** C3.  With at least one configured node, [/nearest/{id}] answers 404 for
    an id that is not in [files], and 503 (never a node) for a record whose
    [Replicated] is empty; in both cases the state is left as it was. *)
Theorem nearest_unknown_or_unreplicated math s id :
  nodes s ≠ [] →
  (files s !! id = None →
     handle_nearest math ("/nearest/" +:+ id) s = (NotFound, s)
     ∧ StatusCode NotFound = 404)
  ∧ (∀ meta, files s !! id = Some meta → FileMeta.Replicated meta = [] →
       handle_nearest math ("/nearest/" +:+ id) s
       = (Error "file not replicated yet" 503, s)).
Proof.
  intros Hnodes. run. rewrite TrimPrefix_app.
  destruct (nodes s) as [|n0 rest]; [done|]. split.
  - by intros ->.
  - by intros meta -> ->.
Qed.

(** C3 on the sample state: ["404"] is unknown, ["7"] has no replica. *)
Lemma nearest_unknown_or_unreplicated_sample :
  nodes sample_state ≠ []
  ∧ files sample_state !! "404" = None
  ∧ files sample_state !! "7" = Some orphan
  ∧ FileMeta.Replicated orphan = []
  ∧ handle_nearest math_small_angle "/nearest/404" sample_state
    = (NotFound, sample_state)
  ∧ handle_nearest math_small_angle "/nearest/7" sample_state
    = (Error "file not replicated yet" 503, sample_state).
Proof.
  assert (nodes sample_state ≠ []) as Hn by done.
  assert (files sample_state !! "404" = None) as H404 by reflexivity.
  assert (files sample_state !! "7" = Some orphan) as H7 by reflexivity.
  split_and!; [done|done|done|done| |].
  - exact (proj1 (proj1 (nearest_unknown_or_unreplicated
                           math_small_angle sample_state "404" Hn) H404)).
  - exact (proj2 (nearest_unknown_or_unreplicated
                    math_small_angle sample_state "7" Hn) orphan H7 eq_refl).
Defined.

(** ** The redirect handler *)

(** C10.  With at least one configured node, [/file/{id}] answers 307 with
    the first node's URL followed by [/file/] and the id, whatever the id
    and whatever [files] holds; the state is untouched. *)
Theorem file_redirects_to_first_node s n0 rest id :
  nodes s = n0 :: rest →
  handle_file ("/file/" +:+ id) s
    = (HttpRedirect (StorageNode.URL n0 +:+ "/file/" +:+ id) 307, s)
  ∧ ∀ m, fst (handle_file ("/file/" +:+ id) (set_files m s))
         = fst (handle_file ("/file/" +:+ id) s).
Proof.
  intros Hn. run. rewrite TrimPrefix_app, Hn. done.
Qed.

(** C10 on the sample state, for an id that [files] does not know. *)
Lemma file_redirects_sample :
  files sample_state !! "never-uploaded" = None
  ∧ handle_file "/file/never-uploaded" sample_state
    = (HttpRedirect "http://sgp.example:9001/file/never-uploaded" 307,
       sample_state).
Proof.
  split; [reflexivity|].
  exact (proj1 (file_redirects_to_first_node
                  sample_state sgp [fra] "never-uploaded" eq_refl)).
Defined.

(** ** The upload handler *)

Lemma is_created_true r : is_created r = true ↔ r = Resp 201.
Proof.
  destruct r as [|code]; simpl; [done|].
  rewrite Z.eqb_eq. split; congruence.
Qed.

Lemma is_created_false r : r ≠ Resp 201 → is_created r = false.
Proof.
  destruct r as [|code]; simpl; [done|].
  intros Hne. apply Z.eqb_neq. congruence.
Qed.

(** A node list either has all its upload requests built, or splits at the
    first node whose request cannot be built. *)
Lemma replicable_split lib ns :
  replicable lib ns
  ∨ ∃ pre n post,
      ns = pre ++ n :: post
      ∧ replicable lib pre
      ∧ NewRequest_ok lib "POST" (StorageNode.URL n +:+ "/replicate") = false.
Proof.
  unfold replicable. induction ns as [|n ns IH]; [by left|].
  destruct (NewRequest_ok lib "POST" (StorageNode.URL n +:+ "/replicate"))
    eqn:Hn.
  - destruct IH as [Hall|(pre & n' & post & -> & Hpre & Hbad)].
    + left. by constructor.
    + right. exists (n :: pre), n', post. split_and!; [done| |done].
      by constructor.
  - right. exists [], n, ns. split_and!; [done|constructor|done].
Qed.

Section Upload.
Variable lib : Lib.
Variable E : Env.
Variables id filename : string.
Variable data : list Byte.byte.

Lemma replies_from_cons t n ns :
  replies_from E id filename data t (n :: ns)
  = respond E t (replicate_request n id filename data)
    :: replies_from E id filename data (S t) ns.
Proof.
  unfold replies_from. simpl. f_equal.
  - by rewrite Nat.add_0_r.
  - apply imap_ext. intros i x _. simpl. f_equal. lia.
Qed.

Lemma acknowledged_cons n ns r rs :
  acknowledged (n :: ns) (r :: rs)
  = (if is_created r then [StorageNode.ID n] else []) ++ acknowledged ns rs.
Proof.
  unfold acknowledged. simpl. rewrite filter_cons. simpl.
  destruct (is_created r); by case_decide.
Qed.

Lemma acknowledged_none ns rs :
  Forall (λ r, r ≠ Resp 201) rs → acknowledged ns rs = [].
Proof.
  intros Hrs. revert ns. induction Hrs as [|r rs Hr _ IH]; intros [|n ns];
    try reflexivity.
  rewrite acknowledged_cons, is_created_false by done. apply IH.
Qed.

(** When every request can be built, the loop makes one request per node,
    whatever the replies, and appends to [rep] the ids of the nodes that
    answered 201. *)
Lemma replicate_loop_run ns rep s :
  replicable lib ns →
  replicate_loop lib E id filename data ns rep s
  = (Some (rep ++ acknowledged ns
                    (replies_from E id filename data (tick s) ns)),
     mkState (nodes s) (files s) (dbFile s) (tick s + length ns)
             (sent s ++ map (λ n, replicate_request n id filename data) ns)).
Proof.
  intros Hns. revert rep s.
  induction Hns as [|n ns Hn _ IH]; intros rep s.
  - simpl. unfold mret, M_ret. rewrite Nat.add_0_r, !app_nil_r.
    by destruct s.
  - rewrite replies_from_cons, acknowledged_cons. simpl.
    unfold http_NewRequest. simpl. rewrite Hn.
    unfold mbind, M_bind, client_Do.
    destruct (respond E (tick s) (replicate_request n id filename data))
      as [|code]; simpl.
    + rewrite IH. simpl. rewrite <- app_assoc. simpl.
      do 2 f_equal. lia.
    + destruct (code =? 201); rewrite IH; simpl;
        rewrite <- !app_assoc; simpl; do 2 f_equal; lia.
Qed.

(** At the first node whose request cannot be built the loop panics: the
    nodes before it have been asked, the others never are. *)
Lemma replicate_loop_panics pre n post rep s :
  replicable lib pre →
  NewRequest_ok lib "POST" (StorageNode.URL n +:+ "/replicate") = false →
  replicate_loop lib E id filename data (pre ++ n :: post) rep s
  = (None,
     mkState (nodes s) (files s) (dbFile s) (tick s + length pre)
             (sent s ++ map (λ n, replicate_request n id filename data) pre)).
Proof.
  intros Hpre Hbad. revert rep s.
  induction Hpre as [|n' pre Hn' _ IH]; intros rep s.
  - simpl. unfold http_NewRequest. simpl. rewrite Hbad.
    unfold mret, M_ret. rewrite Nat.add_0_r, !app_nil_r. by destruct s.
  - simpl. unfold http_NewRequest. simpl. rewrite Hn'.
    unfold mbind, M_bind, client_Do.
    destruct (respond E (tick s) (replicate_request n' id filename data))
      as [|code]; simpl.
    + rewrite IH. simpl. rewrite <- app_assoc. simpl. do 2 f_equal. lia.
    + destruct (code =? 201); rewrite IH; simpl;
        rewrite <- !app_assoc; simpl; do 2 f_equal; lia.
Qed.

(** An id is acknowledged exactly when it is the id of some node whose own
    reply is a 201. *)
Lemma elem_of_acknowledged t ns x :
  x ∈ acknowledged ns (replies_from E id filename data t ns)
  ↔ ∃ i n, ns !! i = Some n
           ∧ respond E (t + i) (replicate_request n id filename data) = Resp 201
           ∧ StorageNode.ID n = x.
Proof.
  unfold acknowledged, replies_from. rewrite list_elem_of_fmap. split.
  - intros [[n r] [-> Hin]]. apply list_elem_of_filter in Hin as [Hc Hin].
    apply elem_of_lookup_zip_with in Hin as (i & n' & r' & Heq & Hn & Hr).
    inversion Heq; subst n' r'. clear Heq.
    rewrite list_lookup_imap, Hn in Hr. simpl in *.
    inversion Hr; subst r. exists i, n. split_and!; [done| |done].
    apply is_created_true. by apply Is_true_true.
  - intros (i & n & Hn & Hr & <-). exists (n, Resp 201). split; [done|].
    apply list_elem_of_filter. split; [done|].
    apply elem_of_lookup_zip_with. exists i, n, (Resp 201).
    split_and!; [done|done|].
    by rewrite list_lookup_imap, Hn; simpl; rewrite Hr.
Qed.

End Upload.

(** The whole handler, in one equation, when every request can be built. *)
Lemma handle_upload_run lib E filename data s :
  replicable lib (nodes s) →
  let id := upload_id E s in
  let rep := acknowledged (nodes s)
               (replies_from E id filename data (S (tick s)) (nodes s)) in
  let m := <[id := FileMeta.mk id filename (Z.of_nat (length data)) rep ""]>
             (files s) in
  let t := (S (tick s) + length (nodes s))%nat in
  handle_upload lib E (Some (filename, data)) s
  = (Some (WriteHeader 201),
     mkState (nodes s) m (file_after lib (write E t) m (dbFile s)) (S t)
             (sent s ++ map (λ n, replicate_request n id filename data)
                            (nodes s))).
Proof.
  intros Hns id rep m t. run. rewrite replicate_loop_run by done. simpl.
  subst id rep m t. unfold upload_id. simpl. done.
Qed.

(** The whole handler when some request cannot be built: no response, no
    record, nothing written. *)
Lemma handle_upload_panics lib E filename data s pre n post :
  nodes s = pre ++ n :: post →
  replicable lib pre →
  NewRequest_ok lib "POST" (StorageNode.URL n +:+ "/replicate") = false →
  handle_upload lib E (Some (filename, data)) s
  = (None,
     mkState (nodes s) (files s) (dbFile s) (S (tick s) + length pre)
             (sent s ++ map (λ n, replicate_request n (upload_id E s)
                                    filename data) pre)).
Proof.
  intros Hns Hpre Hbad. run. rewrite Hns at 1.
  rewrite replicate_loop_panics by done. simpl. by rewrite Hns.
Qed.

(** An upload that is answered had all its requests built. *)
Lemma handle_upload_answered lib E filename data s r :
  (handle_upload lib E (Some (filename, data)) s).1 = Some r →
  replicable lib (nodes s).
Proof.
  destruct (replicable_split lib (nodes s))
    as [Hall|(pre & n & post & Hns & Hpre & Hbad)]; [done|].
  by rewrite (handle_upload_panics lib E filename data s pre n post).
Qed.

Lemma handle_upload_no_file lib E s :
  handle_upload lib E None s = (Some (Error "file required" 400), s).
Proof. reflexivity. Qed.

Example upload_healthy_cluster :
  FileMeta.Replicated
    <$> files (handle_upload lib_sample env_healthy
                 (Some ("a.txt", [Byte.x61])) (fresh [sgp; fra])).2
        !! "1700000000000000000"
  = Some ["sgp"; "fra"].
Proof. vm_compute. reflexivity. Qed.

Example upload_sgp_down :
  let s' := (handle_upload lib_sample env_sgp_down
               (Some ("a.txt", [Byte.x61])) (fresh [sgp; fra])).2 in
  FileMeta.Replicated <$> files s' !! "1700000000000000000" = Some ["fra"]
  ∧ Target <$> sent s' = ["http://sgp.example:9001/replicate";
                          "http://fra.example:9001/replicate"].
Proof. vm_compute. done. Qed.

(** C2 (as the code behaves).  When the request for some configured node
    cannot be built, the upload is not answered 201 and stores no record,
    whatever the nodes answer: the handler panics on the nil request. *)
Theorem upload_panics_when_a_request_cannot_be_built
    lib E filename data s n :
  n ∈ nodes s →
  NewRequest_ok lib "POST" (StorageNode.URL n +:+ "/replicate") = false →
  let r := handle_upload lib E (Some (filename, data)) s in
  r.1 = None ∧ files r.2 = files s ∧ dbFile r.2 = dbFile s.
Proof.
  intros Hin Hbad r. subst r.
  destruct (replicable_split lib (nodes s))
    as [Hall|(pre & n' & post & Hns & Hpre & Hbad')].
  - apply (proj1 (Forall_forall _ _) Hall) in Hin. congruence.
  - by rewrite (handle_upload_panics lib E filename data s pre n' post).
Qed.

(** C2 on a cluster of one unreachable node whose URL has a bad escape. *)
Lemma upload_panics_when_a_request_cannot_be_built_sample :
  bad ∈ nodes (fresh [bad])
  ∧ NewRequest_ok lib_sample "POST" (StorageNode.URL bad +:+ "/replicate")
    = false
  ∧ (handle_upload lib_sample env_unreachable (Some ("a.txt", [Byte.x61]))
       (fresh [bad])).1 = None
  ∧ files (handle_upload lib_sample env_unreachable
             (Some ("a.txt", [Byte.x61])) (fresh [bad])).2 = ∅.
Proof.
  assert (bad ∈ nodes (fresh [bad])) as Hin by apply list_elem_of_here.
  assert (NewRequest_ok lib_sample "POST"
            (StorageNode.URL bad +:+ "/replicate") = false) as Hbad
    by reflexivity.
  destruct (upload_panics_when_a_request_cannot_be_built
              lib_sample env_unreachable "a.txt" [Byte.x61] (fresh [bad]) bad
              Hin Hbad) as (Hr & Hf & _).
  split_and!; [exact Hin|exact Hbad|exact Hr|exact Hf].
Defined.

(** C4 (as the code behaves).  The loop is not independent per node: at the
    first node whose request cannot be built the handler panics, so that
    only the nodes before it are sent a request, the nodes after it are
    never tried, and no record is stored, not even for the nodes that
    answered 201. *)
Theorem upload_stops_at_the_first_unbuildable_request
    lib E filename data s pre n post :
  nodes s = pre ++ n :: post →
  replicable lib pre →
  NewRequest_ok lib "POST" (StorageNode.URL n +:+ "/replicate") = false →
  let r := handle_upload lib E (Some (filename, data)) s in
  r.1 = None
  ∧ sent r.2
    = sent s ++ map (λ n, replicate_request n (upload_id E s) filename data)
                    pre
  ∧ files r.2 = files s.
Proof.
  intros Hns Hpre Hbad r. subst r.
  by rewrite (handle_upload_panics lib E filename data s pre n post).
Qed.

(** C4 on three nodes that all store, the second with a bad URL. *)
Lemma upload_stops_at_the_first_unbuildable_request_sample :
  replicable lib_sample [sgp]
  ∧ NewRequest_ok lib_sample "POST" (StorageNode.URL bad +:+ "/replicate")
    = false
  ∧ (handle_upload lib_sample env_healthy (Some ("a.txt", [Byte.x61]))
       (fresh [sgp; bad; fra])).1 = None
  ∧ Target <$> sent (handle_upload lib_sample env_healthy
                       (Some ("a.txt", [Byte.x61]))
                       (fresh [sgp; bad; fra])).2
    = ["http://sgp.example:9001/replicate"]
  ∧ files (handle_upload lib_sample env_healthy (Some ("a.txt", [Byte.x61]))
             (fresh [sgp; bad; fra])).2 = ∅.
Proof.
  assert (replicable lib_sample [sgp]) as Hpre by (by repeat constructor).
  assert (NewRequest_ok lib_sample "POST"
            (StorageNode.URL bad +:+ "/replicate") = false) as Hbad
    by reflexivity.
  destruct (upload_stops_at_the_first_unbuildable_request
              lib_sample env_healthy "a.txt" [Byte.x61]
              (fresh [sgp; bad; fra]) [sgp] bad [fra] eq_refl Hpre Hbad)
    as (Hr & Hs & Hf).
  split_and!; [exact Hpre|exact Hbad|exact Hr| |exact Hf].
  rewrite Hs. reflexivity.
Defined.

(** C6, as amended.  The id of an ingest is the decimal rendering of the
    clock reading taken by that ingest: a successful ingest stores its
    record under that key, a lookup right after the handler returns a
    record with the uploaded file name and the byte length of the payload,
    two ingests have the same id exactly when their clock readings are
    equal, and an ingest with another id leaves the record in place. *)
Theorem upload_id_is_clock_reading lib E filename data s :
  let id := upload_id E s in
  let r := handle_upload lib E (Some (filename, data)) s in
  (r.1 = Some (WriteHeader 201) →
   ∃ meta, files r.2 = <[id := meta]> (files s)
           ∧ files r.2 !! id = Some meta
           ∧ FileMeta.ID meta = id
           ∧ FileMeta.Filename meta = filename
           ∧ FileMeta.Size meta = Z.of_nat (length data))
  ∧ (∀ E2 s2, upload_id E2 s2 = id ↔ now E2 (tick s2) = now E (tick s))
  ∧ (∀ E2 s2 filename2 data2,
       now E2 (tick s2) ≠ now E (tick s) →
       files (handle_upload lib E2 (Some (filename2, data2)) s2).2 !! id
       = files s2 !! id).
Proof.
  intros id r. subst r.
  assert (∀ E2 s2, upload_id E2 s2 = id ↔ now E2 (tick s2) = now E (tick s))
    as Hid.
  { intros E2 s2. subst id. unfold upload_id, Sprintf_d.
    split; [apply (inj pretty) | by intros ->]. }
  split_and!.
  - intros Hok%handle_upload_answered. rewrite handle_upload_run by done.
    simpl. eexists. split; [done|]. by rewrite lookup_insert_eq.
  - exact Hid.
  - intros E2 s2 filename2 data2 Hne.
    destruct (replicable_split lib (nodes s2))
      as [Hall|(pre & n & post & Hns & Hpre & Hbad)].
    + rewrite handle_upload_run by done. simpl.
      apply lookup_insert_ne. intros Heq. by apply Hne, Hid.
    + by rewrite (handle_upload_panics lib E2 filename2 data2 s2 pre n post).
Qed.

(** C6, as amended, on two uploads that read different clock values: both
    are answered 201, the ids differ and the first record is still there
    after the second. *)
Lemma upload_id_is_clock_reading_sample :
  let s0 := fresh [sgp; fra] in
  let r1 := handle_upload lib_sample env_healthy
              (Some ("a.txt", [Byte.x61])) s0 in
  let s2 := (handle_upload lib_sample env_healthy
               (Some ("b.txt", [Byte.x62; Byte.x62])) r1.2).2 in
  r1.1 = Some (WriteHeader 201)
  ∧ now env_healthy (tick r1.2) ≠ now env_healthy (tick s0)
  ∧ FileMeta.Filename <$> files r1.2 !! upload_id env_healthy s0
    = Some "a.txt"
  ∧ upload_id env_healthy r1.2 ≠ upload_id env_healthy s0
  ∧ files s2 !! upload_id env_healthy s0
    = files r1.2 !! upload_id env_healthy s0.
Proof.
  intros s0 r1 s2.
  assert (r1.1 = Some (WriteHeader 201)) as Hok by (vm_compute; reflexivity).
  assert (now env_healthy (tick r1.2) ≠ now env_healthy (tick s0)) as Hne
    by (vm_compute; discriminate).
  destruct (upload_id_is_clock_reading lib_sample env_healthy "a.txt"
              [Byte.x61] s0) as (Hrec & Hid & Hkeep).
  split_and!.
  - exact Hok.
  - exact Hne.
  - destruct (Hrec Hok) as (meta & _ & Hlook & _ & Hname & _).
    fold s0 in Hlook. fold r1 in Hlook. by rewrite Hlook, <- Hname.
  - intros Heq. exact (Hne (proj1 (Hid env_healthy r1.2) Heq)).
  - exact (Hkeep env_healthy r1.2 "b.txt" [Byte.x62; Byte.x62] Hne).
Defined.

(** C6, counterexample.  Two uploads that read the same clock value get the
    same id: both are answered 201, the second record replaces the first,
    and a lookup of the first upload's id then returns the second upload's
    file name and size. *)
Lemma upload_ids_collide_on_equal_clock_readings :
  let s0 := fresh [sgp] in
  let r1 := handle_upload lib_sample env_coarse_clock
              (Some ("a.txt", [Byte.x61])) s0 in
  let r2 := handle_upload lib_sample env_coarse_clock
              (Some ("b.txt", [Byte.x62; Byte.x62])) r1.2 in
  r1.1 = Some (WriteHeader 201)
  ∧ r2.1 = Some (WriteHeader 201)
  ∧ upload_id env_coarse_clock s0 = upload_id env_coarse_clock r1.2
  ∧ FileMeta.Filename <$> files r1.2 !! upload_id env_coarse_clock s0
    = Some "a.txt"
  ∧ FileMeta.Filename <$> files r2.2 !! upload_id env_coarse_clock s0
    = Some "b.txt"
  ∧ FileMeta.Size <$> files r2.2 !! upload_id env_coarse_clock s0 = Some 2
  ∧ size (files r2.2) = 1%nat.
Proof. vm_compute. done. Qed.

(** C7 (as the code behaves).  The record written by an upload that is
    answered 201 has an empty [CreatedAt]: the handler fills [ID],
    [Filename], [Size] and [Replicated] only. *)
Theorem upload_leaves_CreatedAt_empty lib E filename data s :
  let r := handle_upload lib E (Some (filename, data)) s in
  r.1 = Some (WriteHeader 201) →
  FileMeta.CreatedAt <$> files r.2 !! upload_id E s = Some "".
Proof.
  intros r. subst r. intros Hok%handle_upload_answered.
  rewrite handle_upload_run by done. simpl. by rewrite lookup_insert_eq.
Qed.

(** C7 on an upload of one byte to two nodes that store it. *)
Lemma upload_leaves_CreatedAt_empty_sample :
  (handle_upload lib_sample env_healthy (Some ("a.txt", [Byte.x61]))
     (fresh [sgp; fra])).1 = Some (WriteHeader 201)
  ∧ FileMeta.CreatedAt
      <$> files (handle_upload lib_sample env_healthy
                   (Some ("a.txt", [Byte.x61])) (fresh [sgp; fra])).2
          !! upload_id env_healthy (fresh [sgp; fra])
    = Some "".
Proof.
  assert ((handle_upload lib_sample env_healthy (Some ("a.txt", [Byte.x61]))
             (fresh [sgp; fra])).1 = Some (WriteHeader 201)) as Hok
    by (vm_compute; reflexivity).
  split; [exact Hok|].
  exact (upload_leaves_CreatedAt_empty lib_sample env_healthy "a.txt"
           [Byte.x61] (fresh [sgp; fra]) Hok).
Defined.

(** ** The delete handler *)

Lemma deletable_split lib id ns :
  deletable lib id ns
  ∨ ∃ pre n post,
      ns = pre ++ n :: post
      ∧ deletable lib id pre
      ∧ NewRequest_ok lib "DELETE" (StorageNode.URL n +:+ "/delete/" +:+ id)
        = false.
Proof.
  unfold deletable. induction ns as [|n ns IH]; [by left|].
  destruct (NewRequest_ok lib "DELETE"
              (StorageNode.URL n +:+ "/delete/" +:+ id)) eqn:Hn.
  - destruct IH as [Hall|(pre & n' & post & -> & Hpre & Hbad)].
    + left. by constructor.
    + right. exists (n :: pre), n', post. split_and!; [done| |done].
      by constructor.
  - right. exists [], n, ns. split_and!; [done|constructor|done].
Qed.

Lemma delete_loop_run lib E id ns s :
  deletable lib id ns →
  delete_loop lib E id ns s
  = (Some tt,
     mkState (nodes s) (files s) (dbFile s) (tick s + length ns)
             (sent s ++ map (λ n, delete_request n id) ns)).
Proof.
  intros Hns. revert s. induction Hns as [|n ns Hn _ IH]; intros s; simpl.
  - unfold mret, M_ret. rewrite Nat.add_0_r, app_nil_r. by destruct s.
  - unfold http_NewRequest. simpl. rewrite Hn.
    unfold mbind, M_bind, client_Do. rewrite IH. simpl.
    rewrite <- app_assoc. simpl. do 2 f_equal. lia.
Qed.

Lemma delete_loop_panics lib E id pre n post s :
  deletable lib id pre →
  NewRequest_ok lib "DELETE" (StorageNode.URL n +:+ "/delete/" +:+ id)
  = false →
  delete_loop lib E id (pre ++ n :: post) s
  = (None,
     mkState (nodes s) (files s) (dbFile s) (tick s + length pre)
             (sent s ++ map (λ n, delete_request n id) pre)).
Proof.
  intros Hpre Hbad. revert s.
  induction Hpre as [|n' pre Hn' _ IH]; intros s; simpl.
  - unfold http_NewRequest. simpl. rewrite Hbad.
    unfold mret, M_ret. rewrite Nat.add_0_r, app_nil_r. by destruct s.
  - unfold http_NewRequest. simpl. rewrite Hn'.
    unfold mbind, M_bind, client_Do. rewrite IH. simpl.
    rewrite <- app_assoc. simpl. do 2 f_equal. lia.
Qed.

(** The whole handler, for any path, when every request can be built. *)
Lemma handle_delete_path_run lib E path s :
  let id := TrimPrefix path "/delete/" in
  deletable lib id (nodes s) →
  let m := delete id (files s) in
  let t := (tick s + length (nodes s))%nat in
  handle_delete lib E path s
  = (Some (WriteBody "deleted"),
     mkState (nodes s) m (file_after lib (write E t) m (dbFile s)) (S t)
             (sent s ++ map (λ n, delete_request n id) (nodes s))).
Proof.
  intros id Hns m t. subst m t. run. fold id.
  rewrite delete_loop_run by done. done.
Qed.

(** The whole handler when some request cannot be built: no response,
    [files] and the file as they were. *)
Lemma handle_delete_path_panics lib E path s pre n post :
  let id := TrimPrefix path "/delete/" in
  nodes s = pre ++ n :: post →
  deletable lib id pre →
  NewRequest_ok lib "DELETE" (StorageNode.URL n +:+ "/delete/" +:+ id)
  = false →
  handle_delete lib E path s
  = (None,
     mkState (nodes s) (files s) (dbFile s) (tick s + length pre)
             (sent s ++ map (λ n, delete_request n id) pre)).
Proof.
  intros id Hns Hpre Hbad. run. fold id. rewrite Hns at 1.
  rewrite delete_loop_panics by done. simpl. by rewrite Hns.
Qed.

Lemma handle_delete_run lib E id s :
  deletable lib id (nodes s) →
  let m := delete id (files s) in
  let t := (tick s + length (nodes s))%nat in
  handle_delete lib E ("/delete/" +:+ id) s
  = (Some (WriteBody "deleted"),
     mkState (nodes s) m (file_after lib (write E t) m (dbFile s)) (S t)
             (sent s ++ map (λ n, delete_request n id) (nodes s))).
Proof.
  intros Hns. pose proof (handle_delete_path_run lib E ("/delete/" +:+ id) s)
    as Hrun. rewrite TrimPrefix_app in Hrun. by apply Hrun.
Qed.

Lemma handle_delete_panics lib E id s pre n post :
  nodes s = pre ++ n :: post →
  deletable lib id pre →
  NewRequest_ok lib "DELETE" (StorageNode.URL n +:+ "/delete/" +:+ id)
  = false →
  handle_delete lib E ("/delete/" +:+ id) s
  = (None,
     mkState (nodes s) (files s) (dbFile s) (tick s + length pre)
             (sent s ++ map (λ n, delete_request n id) pre)).
Proof.
  intros Hns Hpre Hbad.
  pose proof (handle_delete_path_panics lib E ("/delete/" +:+ id) s pre n post)
    as Hrun. rewrite TrimPrefix_app in Hrun. by apply Hrun.
Qed.

(** A delete that is answered had all its requests built. *)
Lemma handle_delete_answered lib E id s r :
  (handle_delete lib E ("/delete/" +:+ id) s).1 = Some r →
  deletable lib id (nodes s).
Proof.
  destruct (deletable_split lib id (nodes s))
    as [Hall|(pre & n & post & Hns & Hpre & Hbad)]; [done|].
  by rewrite (handle_delete_panics lib E id s pre n post).
Qed.

(** C8 (as the code behaves).  When the delete request for some configured
    node cannot be built, the handler panics on the nil request: it gives no
    confirmation, and [files] and the metadata file stay as they were, the
    entry for the id included. *)
Theorem delete_panics_when_a_request_cannot_be_built lib E id s n :
  n ∈ nodes s →
  NewRequest_ok lib "DELETE" (StorageNode.URL n +:+ "/delete/" +:+ id)
  = false →
  let r := handle_delete lib E ("/delete/" +:+ id) s in
  r.1 = None ∧ files r.2 = files s ∧ dbFile r.2 = dbFile s.
Proof.
  intros Hin Hbad r. subst r.
  destruct (deletable_split lib id (nodes s))
    as [Hall|(pre & n' & post & Hns & Hpre & Hbad')].
  - apply (proj1 (Forall_forall _ _) Hall) in Hin. congruence.
  - by rewrite (handle_delete_panics lib E id s pre n' post).
Qed.

(** C8 on a coordinator that has just started with two nodes, for the id
    [%zz] (the path [/delete/%25zz]), which was never uploaded. *)
Lemma delete_panics_when_a_request_cannot_be_built_sample :
  main (Doc [sgp; fra]) Absent = Some (fresh [sgp; fra])
  ∧ sgp ∈ nodes (fresh [sgp; fra])
  ∧ NewRequest_ok lib_sample "DELETE"
      (StorageNode.URL sgp +:+ "/delete/" +:+ "%zz") = false
  ∧ files (fresh [sgp; fra]) !! "%zz" = None
  ∧ (handle_delete lib_sample env_healthy "/delete/%zz"
       (fresh [sgp; fra])).1 = None
  ∧ sent (handle_delete lib_sample env_healthy "/delete/%zz"
            (fresh [sgp; fra])).2 = [].
Proof.
  assert (sgp ∈ nodes (fresh [sgp; fra])) as Hin by apply list_elem_of_here.
  assert (NewRequest_ok lib_sample "DELETE"
            (StorageNode.URL sgp +:+ "/delete/" +:+ "%zz") = false) as Hbad
    by reflexivity.
  destruct (delete_panics_when_a_request_cannot_be_built
              lib_sample env_healthy "%zz" (fresh [sgp; fra]) sgp Hin Hbad)
    as (Hr & _ & _).
  split_and!; [reflexivity|exact Hin|exact Hbad|reflexivity|exact Hr|
               reflexivity].
Defined.

Example delete_known_id_unreachable_cluster :
  let r := handle_delete lib_sample env_unreachable "/delete/8" sample_state in
  r.1 = Some (WriteBody "deleted")
  ∧ files r.2 !! "8" = None
  ∧ files r.2 !! "7" = Some orphan
  ∧ Target <$> sent r.2 = ["http://sgp.example:9001/delete/8";
                           "http://fra.example:9001/delete/8"].
Proof. vm_compute. done. Qed.

(** ** Process start *)

Lemma loadDB_run s :
  loadDB s = (tt, match dbFile s with
                  | Doc m | Mistyped m => set_files (m ∪ files s) s
                  | Null => set_files ∅ s
                  | _ => s
                  end).
Proof. run. by destruct (dbFile s). Qed.

(** C9 (as the code behaves).  [main] starts with an empty [files] whatever
    the metadata file holds: a record persisted there is not found after a
    restart, although [loadDB], had it been called, would have restored
    it. *)
Theorem main_does_not_load_dbFile ns m id meta :
  m !! id = Some meta →
  ∃ s, main (Doc ns) (Doc m) = Some s
       ∧ files s = ∅
       ∧ files s !! id = None
       ∧ files (loadDB s).2 !! id = Some meta.
Proof.
  intros Hm. eexists. split; [done|]. split_and!; [done|done|].
  rewrite loadDB_run. simpl. rewrite lookup_union_l'; by rewrite Hm.
Qed.

(** C9 on a metadata file that holds the record ["7"]. *)
Lemma main_does_not_load_dbFile_sample :
  ({["7" := orphan]} : gmap string FileMeta.t) !! "7" = Some orphan
  ∧ ∃ s, main (Doc [sgp; fra]) (Doc {["7" := orphan]}) = Some s
         ∧ files s = ∅
         ∧ files s !! "7" = None
         ∧ files (loadDB s).2 !! "7" = Some orphan.
Proof.
  assert (({["7" := orphan]} : gmap string FileMeta.t) !! "7" = Some orphan)
    as Hm by reflexivity.
  split; [exact Hm|].
  exact (main_does_not_load_dbFile [sgp; fra] {["7" := orphan]} "7" orphan Hm).
Defined.
(* ===================== FURTHER PROPERTIES ===================== *)

(** ** The order on [float64] *)

(** The comparison of primitive floats is related to its specification on
    [spec_float] by the standard library's [ltb_spec]; the facts about
    arithmetic further down come from [sub_spec] and [mul_spec] in the same
    way. *)

Lemma SFltb_irrefl x : SFltb x x = false.
Proof.
  unfold SFltb.
  destruct x as [[]|[]| |[] m e]; simpl; try reflexivity;
    rewrite Z.compare_refl, Pos.compare_cont_refl; reflexivity.
Qed.

Ltac compare_cases :=
  repeat match goal with
  | |- context [Pos.compare_cont Eq ?a ?b] =>
      change (Pos.compare_cont Eq a b) with (Pos.compare a b)
  end;
  repeat match goal with
  | |- context [Z.compare ?a ?b] => destruct (Z.compare_spec a b)
  | |- context [Pos.compare ?a ?b] => destruct (Pos.compare_spec a b)
  end.

Lemma SFltb_trans x y z :
  SFltb x y = true → SFltb y z = true → SFltb x z = true.
Proof.
  unfold SFltb.
  destruct x as [[]|[]| |[] mx ex], y as [[]|[]| |[] my ey],
           z as [[]|[]| |[] mz ez]; simpl; try (intros; congruence);
    compare_cases; simpl; try (intros; congruence); try lia.
Qed.

Lemma ltb_irrefl (x : float) : PrimFloat.ltb x x = false.
Proof. rewrite ltb_spec. apply SFltb_irrefl. Qed.

Lemma ltb_trans (x y z : float) :
  PrimFloat.ltb x y = true → PrimFloat.ltb y z = true →
  PrimFloat.ltb x z = true.
Proof. rewrite !ltb_spec. apply SFltb_trans. Qed.

(** [c] is not below [b] and [a] is: then [c] is not below [a]. *)
Lemma ltb_not_below (a b c : float) :
  PrimFloat.ltb a b = true → PrimFloat.ltb c b = false →
  PrimFloat.ltb c a = false.
Proof.
  intros Hab Hcb. destruct (PrimFloat.ltb c a) eqn:Hca; [|done].
  by rewrite (ltb_trans c a b) in Hcb.
Qed.

(** ** The scan of the nearest handler *)

Section Scan.
Variable math : Math.
Variables lat lon : float.
Variable replicated : list string.

Let dist (n : StorageNode.t) : float :=
  haversine math lat lon (StorageNode.Lat n) (StorageNode.Lon n).
Let serving (n : StorageNode.t) : Prop := StorageNode.ID n ∈ replicated.

(** The inner loop replaces [(best, bestD)] by the node exactly when the
    node holds a replica and is strictly nearer; further occurrences of its
    id in [replicated] change nothing. *)
Lemma nearest_outer_pick acc n :
  nearest_outer math lat lon replicated acc n
  = if bool_decide (serving n) && PrimFloat.ltb (dist n) acc.2
    then (n, dist n) else acc.
Proof.
  unfold nearest_outer, serving. revert acc.
  induction replicated as [|rid rs IH]; intros acc; simpl; [done|].
  rewrite IH. unfold nearest_inner. fold (dist n).
  destruct (String.eqb_spec (StorageNode.ID n) rid) as [->|Hne].
  - rewrite (bool_decide_eq_true_2 (rid ∈ rid :: rs)) by apply list_elem_of_here.
    destruct (PrimFloat.ltb (dist n) acc.2) eqn:Hlt; simpl.
    + by rewrite ltb_irrefl, andb_false_r.
    + by rewrite Hlt, andb_false_r.
  - assert (bool_decide (StorageNode.ID n ∈ rid :: rs)
            = bool_decide (StorageNode.ID n ∈ rs)) as ->; [|done].
    apply bool_decide_ext. rewrite elem_of_cons.
    split; [intros [Heq|Hin]; [congruence|done] | by right].
Qed.

(** The outer loop from [(b0, d0)]: either no node that holds a replica is
    below [d0] and the pair is unchanged, or the result is the first of the
    nodes that hold a replica at the least distance. *)
Lemma nearest_scan_spec ns b0 d0 b d :
  fold_left (nearest_outer math lat lon replicated) ns (b0, d0) = (b, d) →
  (b = b0 ∧ d = d0
   ∧ ∀ n, n ∈ ns → serving n → PrimFloat.ltb (dist n) d0 = false)
  ∨ (∃ pre post,
       ns = pre ++ b :: post
       ∧ serving b ∧ d = dist b ∧ PrimFloat.ltb d d0 = true
       ∧ (∀ n, n ∈ pre → serving n →
            PrimFloat.ltb (dist n) d = false ∧ dist n ≠ d)
       ∧ (∀ n, n ∈ post → serving n → PrimFloat.ltb (dist n) d = false)).
Proof.
  revert b0 d0. induction ns as [|n ns IH]; intros b0 d0; simpl.
  { intros [= <- <-]. left. split_and!; [done|done|].
    by intros n Hn%elem_of_nil. }
  rewrite nearest_outer_pick. simpl.
  destruct (bool_decide (serving n) && PrimFloat.ltb (dist n) d0) eqn:Hpick;
    intros Hfold; apply IH in Hfold
      as [(-> & -> & Hrest)
         |(pre & post & Hns & Hsb & Hd & Hlt & Hpre & Hpost)].
  - apply andb_true_iff in Hpick as [Hs%bool_decide_eq_true_1 Hn0].
    right. exists [], ns. simpl. split_and!; try done.
    by intros n' Hn'%elem_of_nil.
  - apply andb_true_iff in Hpick as [Hs%bool_decide_eq_true_1 Hn0].
    right. exists (n :: pre), post. rewrite Hns at 1. simpl.
    split_and!; try done.
    + by apply (ltb_trans _ (dist n)).
    + intros n' [->|Hn']%elem_of_cons Hs'; [|by apply Hpre]. split.
      * destruct (PrimFloat.ltb (dist n) d) eqn:Hback; [|done].
        pose proof (ltb_trans _ _ _ Hback Hlt) as Habs.
        by rewrite ltb_irrefl in Habs.
      * intros Heq. rewrite Heq, ltb_irrefl in Hlt. done.
  - left. split_and!; [done|done|].
    intros n' [->|Hn']%elem_of_cons Hs'; [|by apply Hrest].
    apply andb_false_iff in Hpick as [Hns|Hn0]; [|done].
    by apply bool_decide_eq_false_1 in Hns.
  - assert (serving n → PrimFloat.ltb (dist n) d0 = false) as Hn0.
    { intros Hs. apply andb_false_iff in Hpick as [Hns'|Hn0]; [|done].
      by apply bool_decide_eq_false_1 in Hns'. }
    right. exists (n :: pre), post. rewrite Hns at 1. simpl.
    split_and!; try done.
    intros n' [->|Hn']%elem_of_cons Hs'; [|by apply Hpre]. split.
    + by apply (ltb_not_below _ d0); [|apply Hn0].
    + intros Heq. rewrite Heq in Hn0. rewrite Hn0 in Hlt; done.
Qed.

End Scan.

(** ** The nearest handler on a replicated record *)

Lemma handle_nearest_scan math s id meta n0 rest :
  nodes s = n0 :: rest →
  files s !! id = Some meta →
  FileMeta.Replicated meta ≠ [] →
  handle_nearest math ("/nearest/" +:+ id) s
  = (EncodeNode
       (fold_left (nearest_outer math 1.3521%float 103.8198%float
                     (FileMeta.Replicated meta))
                  (nodes s) (n0, 1e18%float)).1, s).
Proof.
  intros Hn Hf Hrep. run. rewrite TrimPrefix_app, Hn, Hf.
  destruct (FileMeta.Replicated meta) as [|rid rs] eqn:Hr; [done|].
  change (length (rid :: rs) =? 0)%nat with false. cbv iota.
  by destruct (fold_left _ _ _).
Qed.

(** X1.  When some configured node holds a replica of the record and its
    distance is below the initial bound 1e18, [/nearest/{id}] answers with a
    configured node that holds a replica, and no configured node that holds
    a replica is strictly nearer to the reference point. *)
Theorem nearest_answers_a_nearest_replica math s id meta n0 rest n :
  nodes s = n0 :: rest →
  files s !! id = Some meta →
  n ∈ nodes s →
  StorageNode.ID n ∈ FileMeta.Replicated meta →
  PrimFloat.ltb (distance math n) 1e18%float = true →
  ∃ best,
    handle_nearest math ("/nearest/" +:+ id) s = (EncodeNode best, s)
    ∧ best ∈ nodes s
    ∧ StorageNode.ID best ∈ FileMeta.Replicated meta
    ∧ ∀ n', n' ∈ nodes s →
            StorageNode.ID n' ∈ FileMeta.Replicated meta →
            PrimFloat.ltb (distance math n') (distance math best) = false.
Proof.
  intros Hn Hf Hin Hserv Hlt.
  assert (FileMeta.Replicated meta ≠ []) as Hrep.
  { intros Heq. rewrite Heq in Hserv. by apply elem_of_nil in Hserv. }
  rewrite (handle_nearest_scan math s id meta n0 rest) by done.
  destruct (fold_left _ _ _) as [b d] eqn:Hscan. simpl.
  apply nearest_scan_spec in Hscan
    as [(-> & -> & Hnone)
       |(pre & post & Hns & Hsb & Hd & _ & Hpre & Hpost)].
  - specialize (Hnone n Hin Hserv). unfold distance in Hlt. congruence.
  - exists b. split_and!; [done| |done|].
    + rewrite Hns. apply elem_of_app. right. apply list_elem_of_here.
    + intros n' Hn' Hs'. unfold distance. rewrite <- Hd.
      rewrite Hns in Hn'.
      apply elem_of_app in Hn' as [Hn'|[->|Hn']%elem_of_cons].
      * by apply Hpre.
      * rewrite Hd. apply ltb_irrefl.
      * by apply Hpost.
Qed.

(** X1 on the record stored on [fra] and [sgp]: [sgp] holds a replica in
    range. *)
Lemma nearest_answers_a_nearest_replica_sample :
  files mirrored_state !! "9" = Some mirrored
  ∧ sgp ∈ nodes mirrored_state
  ∧ StorageNode.ID sgp ∈ FileMeta.Replicated mirrored
  ∧ PrimFloat.ltb (distance math_small_angle sgp) 1e18%float = true
  ∧ ∃ best,
      handle_nearest math_small_angle "/nearest/9" mirrored_state
      = (EncodeNode best, mirrored_state)
      ∧ best ∈ nodes mirrored_state
      ∧ StorageNode.ID best ∈ FileMeta.Replicated mirrored
      ∧ ∀ n', n' ∈ nodes mirrored_state →
              StorageNode.ID n' ∈ FileMeta.Replicated mirrored →
              PrimFloat.ltb (distance math_small_angle n')
                            (distance math_small_angle best) = false.
Proof.
  assert (files mirrored_state !! "9" = Some mirrored) as Hf by reflexivity.
  assert (sgp ∈ nodes mirrored_state) as Hin
    by (apply list_elem_of_further, list_elem_of_here).
  assert (StorageNode.ID sgp ∈ FileMeta.Replicated mirrored) as Hs
    by (apply list_elem_of_further, list_elem_of_here).
  assert (PrimFloat.ltb (distance math_small_angle sgp) 1e18%float = true)
    as Hlt by (vm_compute; reflexivity).
  split_and!; [done|done|done|done|].
  exact (nearest_answers_a_nearest_replica
           math_small_angle mirrored_state "9" mirrored fra [sgp] sgp
           eq_refl Hf Hin Hs Hlt).
Defined.

Example nearest_mirrored :
  (handle_nearest math_small_angle "/nearest/9" mirrored_state).1
  = EncodeNode sgp.
Proof. vm_compute. reflexivity. Qed.

(** X2.  Ties go to the node configured first: in the same situation every
    node that is listed before the answer and holds a replica has a distance
    different from the answer's. *)
Theorem nearest_tie_goes_to_first_configured math s id meta n0 rest n :
  nodes s = n0 :: rest →
  files s !! id = Some meta →
  n ∈ nodes s →
  StorageNode.ID n ∈ FileMeta.Replicated meta →
  PrimFloat.ltb (distance math n) 1e18%float = true →
  ∃ pre best post,
    nodes s = pre ++ best :: post
    ∧ handle_nearest math ("/nearest/" +:+ id) s = (EncodeNode best, s)
    ∧ ∀ n', n' ∈ pre →
            StorageNode.ID n' ∈ FileMeta.Replicated meta →
            distance math n' ≠ distance math best.
Proof.
  intros Hn Hf Hin Hserv Hlt.
  assert (FileMeta.Replicated meta ≠ []) as Hrep.
  { intros Heq. rewrite Heq in Hserv. by apply elem_of_nil in Hserv. }
  rewrite (handle_nearest_scan math s id meta n0 rest) by done.
  destruct (fold_left _ _ _) as [b d] eqn:Hscan. simpl.
  apply nearest_scan_spec in Hscan
    as [(-> & -> & Hnone)
       |(pre & post & Hns & Hsb & Hd & _ & Hpre & Hpost)].
  - specialize (Hnone n Hin Hserv). unfold distance in Hlt. congruence.
  - exists pre, b, post. split_and!; [done|done|].
    intros n' Hn' Hs'. unfold distance. rewrite <- Hd. by apply Hpre.
Qed.

(** X2 on three nodes of which [sgp] and [sgp2] are at the same place. *)
Lemma nearest_tie_goes_to_first_configured_sample :
  sgp2 ∈ nodes tied_state
  ∧ PrimFloat.ltb (distance math_small_angle sgp2) 1e18%float = true
  ∧ ∃ pre best post,
      nodes tied_state = pre ++ best :: post
      ∧ handle_nearest math_small_angle "/nearest/9" tied_state
        = (EncodeNode best, tied_state)
      ∧ ∀ n', n' ∈ pre →
              StorageNode.ID n' ∈ ["sgp2"; "sgp"; "fra"] →
              distance math_small_angle n' ≠ distance math_small_angle best.
Proof.
  assert (sgp2 ∈ nodes tied_state) as Hin
    by (do 2 apply list_elem_of_further; apply list_elem_of_here).
  assert (PrimFloat.ltb (distance math_small_angle sgp2) 1e18%float = true)
    as Hlt by (vm_compute; reflexivity).
  split_and!; [done|done|].
  exact (nearest_tie_goes_to_first_configured
           math_small_angle tied_state "9"
           (FileMeta.mk "9" "c.txt" 4 ["sgp2"; "sgp"; "fra"] "")
           fra [sgp; sgp2] sgp2 eq_refl eq_refl Hin
           (list_elem_of_here _ _) Hlt).
Defined.

Example nearest_tied :
  (handle_nearest math_small_angle "/nearest/9" tied_state).1
  = EncodeNode sgp.
Proof. vm_compute. reflexivity. Qed.

(** X3.  For a record with a non-empty [Replicated], [/nearest/{id}] always
    answers with a configured node and leaves the state alone; the node
    holds a replica, unless no configured node that holds one has a distance
    below 1e18, in which case it is the first configured node. *)
Theorem nearest_answers_a_configured_node math s id meta n0 rest :
  nodes s = n0 :: rest →
  files s !! id = Some meta →
  FileMeta.Replicated meta ≠ [] →
  ∃ best,
    handle_nearest math ("/nearest/" +:+ id) s = (EncodeNode best, s)
    ∧ best ∈ nodes s
    ∧ (StorageNode.ID best ∈ FileMeta.Replicated meta
       ∨ best = n0
         ∧ ∀ n, n ∈ nodes s →
                StorageNode.ID n ∈ FileMeta.Replicated meta →
                PrimFloat.ltb (distance math n) 1e18%float = false).
Proof.
  intros Hn Hf Hrep.
  rewrite (handle_nearest_scan math s id meta n0 rest) by done.
  destruct (fold_left _ _ _) as [b d] eqn:Hscan. simpl.
  apply nearest_scan_spec in Hscan
    as [(-> & -> & Hnone)
       |(pre & post & Hns & Hsb & Hd & _ & Hpre & Hpost)].
  - exists n0. split_and!; [done| |by right].
    rewrite Hn. apply list_elem_of_here.
  - exists b. split_and!; [done| |by left].
    rewrite Hns. apply elem_of_app. right. apply list_elem_of_here.
Qed.

(** X3 on the record whose only replica is on a node that is gone. *)
Lemma nearest_answers_a_configured_node_sample :
  files sample_state !! "8" = Some stray
  ∧ FileMeta.Replicated stray ≠ []
  ∧ ∃ best,
      handle_nearest math_small_angle "/nearest/8" sample_state
      = (EncodeNode best, sample_state)
      ∧ best ∈ nodes sample_state
      ∧ (StorageNode.ID best ∈ FileMeta.Replicated stray
         ∨ best = sgp
           ∧ ∀ n, n ∈ nodes sample_state →
                  StorageNode.ID n ∈ FileMeta.Replicated stray →
                  PrimFloat.ltb (distance math_small_angle n) 1e18%float
                  = false).
Proof.
  assert (files sample_state !! "8" = Some stray) as Hf by reflexivity.
  assert (FileMeta.Replicated stray ≠ []) as Hrep by done.
  split_and!; [done|done|].
  exact (nearest_answers_a_configured_node
           math_small_angle sample_state "8" stray sgp [fra] eq_refl Hf Hrep).
Defined.


(** ** Handlers that only read *)

(** X4.  [/list], [/nearest/], [/file/] and an upload without a file part
    leave the whole state as it was, for every path and every state: no
    record changes, no request goes out, nothing is written. *)
Theorem reading_calls_change_nothing math lib E c s :
  reads_only c = true → (serve math lib E c s).2 = s.
Proof.
  destruct c as [|[[filename data]|]|path|path|path]; simpl; try done;
    intros _; run.
  - destruct (nodes s) as [|n0 rest]; [done|].
    destruct (files s !! _) as [meta|]; [|done].
    destruct (length (FileMeta.Replicated meta) =? 0)%nat; [done|].
    by destruct (fold_left _ _ _).
  - by destruct (nodes s).
Qed.

Lemma reading_calls_change_nothing_sample :
  reads_only (CallNearest "/nearest/9") = true
  ∧ (serve math_small_angle lib_sample env_unreachable
       (CallNearest "/nearest/9") mirrored_state).2 = mirrored_state.
Proof.
  split; [reflexivity|].
  exact (reading_calls_change_nothing math_small_angle lib_sample
           env_unreachable (CallNearest "/nearest/9") mirrored_state eq_refl).
Defined.

(** X5.  Without configured nodes, [/nearest/] and [/file/] answer 503 for
    every path, before looking at [files]: an unknown id gets 503, not 404,
    and [/file/] does not redirect. *)
Theorem no_nodes_is_unavailable math path s :
  nodes s = [] →
  handle_nearest math path s = (Error "no storage nodes configured" 503, s)
  ∧ handle_file path s = (Error "no storage nodes configured" 503, s).
Proof. intros Hn. run. by rewrite Hn. Qed.

Lemma no_nodes_is_unavailable_sample :
  files (fresh []) !! "404" = None
  ∧ handle_nearest math_small_angle "/nearest/404" (fresh [])
    = (Error "no storage nodes configured" 503, fresh [])
  ∧ handle_file "/file/404" (fresh [])
    = (Error "no storage nodes configured" 503, fresh []).
Proof.
  split; [reflexivity|]. split.
  - exact (proj1 (no_nodes_is_unavailable math_small_angle "/nearest/404"
                    (fresh []) eq_refl)).
  - exact (proj2 (no_nodes_is_unavailable math_small_angle "/file/404"
                    (fresh []) eq_refl)).
Defined.

(** ** More on the upload handler *)

Lemma acknowledged_all ns rs :
  length rs = length ns → Forall (λ r, r = Resp 201) rs →
  acknowledged ns rs = StorageNode.ID <$> ns.
Proof.
  intros Hlen Hrs. revert ns Hlen.
  induction Hrs as [|r rs -> _ IH]; intros [|n ns] Hlen; try done.
  rewrite acknowledged_cons. simpl. f_equal. apply IH. simpl in Hlen. lia.
Qed.

Lemma acknowledged_sublist ns rs :
  acknowledged ns rs `sublist_of` (StorageNode.ID <$> ns).
Proof.
  revert rs. induction ns as [|n ns IH]; intros rs.
  - apply sublist_nil_l.
  - destruct rs as [|r rs]; [apply sublist_nil_l|].
    rewrite acknowledged_cons. simpl.
    destruct (is_created r); simpl; [by apply sublist_skip|by apply sublist_cons].
Qed.

(** X6.  When every request of the upload can be built and every reply is
    a 201, the stored record lists the ids of all configured nodes, in
    configuration order. *)
Theorem upload_acknowledged_by_all lib E filename data s :
  replicable lib (nodes s) →
  Forall (λ r, r = Resp 201)
         (replies_from E (upload_id E s) filename data (S (tick s)) (nodes s)) →
  FileMeta.Replicated
    <$> files (handle_upload lib E (Some (filename, data)) s).2
        !! upload_id E s
  = Some (StorageNode.ID <$> nodes s).
Proof.
  intros Hns Hall. rewrite handle_upload_run by done. simpl.
  rewrite lookup_insert_eq.
  simpl. rewrite acknowledged_all; [done| |done].
  unfold replies_from. by rewrite length_imap.
Qed.

Lemma upload_acknowledged_by_all_sample :
  replicable lib_sample (nodes (fresh [sgp; fra]))
  ∧ Forall (λ r, r = Resp 201)
         (replies_from env_healthy (upload_id env_healthy (fresh [sgp; fra]))
            "a.txt" [Byte.x61] (S (tick (fresh [sgp; fra])))
            (nodes (fresh [sgp; fra])))
  ∧ FileMeta.Replicated
      <$> files (handle_upload lib_sample env_healthy
                   (Some ("a.txt", [Byte.x61])) (fresh [sgp; fra])).2
          !! upload_id env_healthy (fresh [sgp; fra])
    = Some ["sgp"; "fra"].
Proof.
  assert (replicable lib_sample (nodes (fresh [sgp; fra]))) as Hns
    by (by repeat constructor).
  assert (Forall (λ r, r = Resp 201)
            (replies_from env_healthy
               (upload_id env_healthy (fresh [sgp; fra]))
               "a.txt" [Byte.x61] (S (tick (fresh [sgp; fra])))
               (nodes (fresh [sgp; fra])))) as Hall
    by (repeat constructor).
  split_and!; [exact Hns|exact Hall|].
  exact (upload_acknowledged_by_all lib_sample env_healthy "a.txt" [Byte.x61]
           (fresh [sgp; fra]) Hns Hall).
Defined.

(** X7.  Whatever the nodes answer, the [Replicated] list of the record
    stored by an upload that is answered 201 is a sublist of the configured
    node ids: it keeps their order, is no longer than the node list, and
    has no duplicate when the node ids have none. *)
Theorem upload_replicated_is_a_sublist_of_the_nodes lib E filename data s :
  let r := handle_upload lib E (Some (filename, data)) s in
  r.1 = Some (WriteHeader 201) →
  ∃ rep,
    FileMeta.Replicated <$> files r.2 !! upload_id E s = Some rep
    ∧ rep `sublist_of` (StorageNode.ID <$> nodes s)
    ∧ (length rep ≤ length (nodes s))%nat
    ∧ (NoDup (StorageNode.ID <$> nodes s) → NoDup rep).
Proof.
  intros r. subst r. intros Hok%handle_upload_answered.
  rewrite handle_upload_run by done. simpl. rewrite lookup_insert_eq. simpl.
  eexists. split; [done|].
  pose proof (acknowledged_sublist (nodes s)
    (replies_from E (upload_id E s) filename data (S (tick s)) (nodes s)))
    as Hsub.
  split_and!; [done| |].
  - apply sublist_length in Hsub. by rewrite length_fmap in Hsub.
  - intros Hnd. by apply (sublist_NoDup _ _ Hnd).
Qed.

Lemma upload_replicated_is_a_sublist_of_the_nodes_sample :
  (handle_upload lib_sample env_sgp_down (Some ("a.txt", [Byte.x61]))
     (fresh [sgp; fra])).1 = Some (WriteHeader 201)
  ∧ NoDup (StorageNode.ID <$> nodes (fresh [sgp; fra]))
  ∧ ∃ rep,
      FileMeta.Replicated
        <$> files (handle_upload lib_sample env_sgp_down
                     (Some ("a.txt", [Byte.x61])) (fresh [sgp; fra])).2
            !! upload_id env_sgp_down (fresh [sgp; fra])
      = Some rep
      ∧ NoDup rep.
Proof.
  assert ((handle_upload lib_sample env_sgp_down (Some ("a.txt", [Byte.x61]))
             (fresh [sgp; fra])).1 = Some (WriteHeader 201)) as Hok
    by (vm_compute; reflexivity).
  assert (NoDup (StorageNode.ID <$> nodes (fresh [sgp; fra]))) as Hnd
    by (apply (bool_decide_unpack _); vm_compute; exact I).
  split_and!; [exact Hok|exact Hnd|].
  destruct (upload_replicated_is_a_sublist_of_the_nodes
              lib_sample env_sgp_down "a.txt" [Byte.x61] (fresh [sgp; fra])
              Hok)
    as (rep & Hrep & _ & _ & Hnodup).
  exists rep. split; [exact Hrep|exact (Hnodup Hnd)].
Defined.

(** ** More on the delete handler *)

(** X8.  When every delete request can be built, delete contacts every
    configured node once, in order, with a [DELETE] on the node's URL
    followed by [/delete/] and the id, whether or not [files] knows the id
    and whatever the nodes answer. *)
Theorem delete_asks_every_node lib E id s :
  deletable lib id (nodes s) →
  sent (handle_delete lib E ("/delete/" +:+ id) s).2
  = sent s
    ++ ((λ n, mkRequest "DELETE" (StorageNode.URL n +:+ "/delete/" +:+ id)
                        NoBody) <$> nodes s).
Proof. intros Hns. by rewrite handle_delete_run. Qed.

Lemma delete_asks_every_node_sample :
  deletable lib_sample "404" (nodes sample_state)
  ∧ Target <$> sent (handle_delete lib_sample env_unreachable "/delete/404"
                       sample_state).2
    = ["http://sgp.example:9001/delete/404";
       "http://fra.example:9001/delete/404"].
Proof.
  assert (deletable lib_sample "404" (nodes sample_state)) as Hns
    by (by repeat constructor).
  split; [exact Hns|].
  exact (f_equal (fmap Target)
           (delete_asks_every_node lib_sample env_unreachable "404"
              sample_state Hns)).
Defined.

(** X9.  Upload and delete touch one key: every other record of [files] is
    the same after the handler as before. *)
Theorem mutations_touch_one_key lib E filename data id k s :
  (k ≠ upload_id E s →
   files (handle_upload lib E (Some (filename, data)) s).2 !! k
   = files s !! k)
  ∧ (k ≠ id →
     files (handle_delete lib E ("/delete/" +:+ id) s).2 !! k = files s !! k).
Proof.
  split; intros Hne.
  - destruct (replicable_split lib (nodes s))
      as [Hall|(pre & n & post & Hns & Hpre & Hbad)].
    + rewrite handle_upload_run by done. simpl. by apply lookup_insert_ne.
    + by rewrite (handle_upload_panics lib E filename data s pre n post).
  - destruct (deletable_split lib id (nodes s))
      as [Hall|(pre & n & post & Hns & Hpre & Hbad)].
    + rewrite handle_delete_run by done. simpl. by apply lookup_delete_ne.
    + by rewrite (handle_delete_panics lib E id s pre n post).
Qed.

Lemma mutations_touch_one_key_sample :
  "7" ≠ upload_id env_healthy sample_state
  ∧ "7" ≠ "8"
  ∧ files (handle_upload lib_sample env_healthy (Some ("a.txt", [Byte.x61]))
             sample_state).2 !! "7" = Some orphan
  ∧ files (handle_delete lib_sample env_healthy "/delete/8" sample_state).2
      !! "7"
    = Some orphan.
Proof.
  assert ("7" ≠ upload_id env_healthy sample_state) as H1
    by (vm_compute; discriminate).
  assert ("7" ≠ "8") as H2 by discriminate.
  split_and!; [exact H1|exact H2| |].
  - exact (proj1 (mutations_touch_one_key lib_sample env_healthy "a.txt"
                    [Byte.x61] "8" "7" sample_state) H1).
  - exact (proj2 (mutations_touch_one_key lib_sample env_healthy "a.txt"
                    [Byte.x61] "8" "7" sample_state) H2).
Defined.

(** X10.  When every delete request can be built, delete is idempotent on
    [files]: a second delete of the same id answers with the confirmation
    again and leaves [files] as the first delete left it (it still contacts
    the nodes and rewrites the file). *)
Theorem delete_twice lib E E' id s :
  deletable lib id (nodes s) →
  let s1 := (handle_delete lib E ("/delete/" +:+ id) s).2 in
  let r2 := handle_delete lib E' ("/delete/" +:+ id) s1 in
  r2.1 = Some (WriteBody "deleted")
  ∧ files r2.2 = files s1
  ∧ sent r2.2 = sent s1 ++ ((λ n, delete_request n id) <$> nodes s).
Proof.
  intros Hns s1 r2. subst s1 r2. rewrite (handle_delete_run lib E) by done.
  rewrite handle_delete_run by done. simpl.
  split_and!; [done| |done]. apply delete_delete_eq.
Qed.

Lemma delete_twice_sample :
  deletable lib_sample "8" (nodes sample_state)
  ∧ (handle_delete lib_sample env_unreachable "/delete/8"
       (handle_delete lib_sample env_healthy "/delete/8" sample_state).2).1
    = Some (WriteBody "deleted")
  ∧ files (handle_delete lib_sample env_unreachable "/delete/8"
             (handle_delete lib_sample env_healthy "/delete/8"
                sample_state).2).2
    = files (handle_delete lib_sample env_healthy "/delete/8" sample_state).2.
Proof.
  assert (deletable lib_sample "8" (nodes sample_state)) as Hns
    by (by repeat constructor).
  destruct (delete_twice lib_sample env_healthy env_unreachable "8"
              sample_state Hns) as (Hr & Hf & _).
  split_and!; [exact Hns|exact Hr|exact Hf].
Defined.

(** ** Upload and delete together *)

(** X11.  Deleting the id of an upload undoes the upload in [files], when
    the upload was answered 201 and every delete request can be built: the
    map is the one before the upload without that id, hence the same map
    when the id was new. *)
Theorem upload_then_delete lib E E' filename data s :
  let id := upload_id E s in
  let r1 := handle_upload lib E (Some (filename, data)) s in
  let s2 := (handle_delete lib E' ("/delete/" +:+ id) r1.2).2 in
  r1.1 = Some (WriteHeader 201) →
  deletable lib id (nodes s) →
  files s2 = delete id (files s)
  ∧ (files s !! id = None → files s2 = files s).
Proof.
  intros id r1 s2. subst r1 s2. intros Hok%handle_upload_answered Hdel.
  rewrite handle_upload_run by done. rewrite handle_delete_run by done.
  simpl. fold id. rewrite delete_insert_eq. split; [done|]. apply delete_id.
Qed.

Lemma upload_then_delete_sample :
  (handle_upload lib_sample env_healthy (Some ("a.txt", [Byte.x61]))
     sample_state).1 = Some (WriteHeader 201)
  ∧ deletable lib_sample (upload_id env_healthy sample_state)
      (nodes sample_state)
  ∧ files sample_state !! upload_id env_healthy sample_state = None
  ∧ files (handle_delete lib_sample env_unreachable
             ("/delete/" +:+ upload_id env_healthy sample_state)
             (handle_upload lib_sample env_healthy
                (Some ("a.txt", [Byte.x61])) sample_state).2).2
    = files sample_state.
Proof.
  assert ((handle_upload lib_sample env_healthy (Some ("a.txt", [Byte.x61]))
             sample_state).1 = Some (WriteHeader 201)) as Hok
    by (vm_compute; reflexivity).
  assert (deletable lib_sample (upload_id env_healthy sample_state)
            (nodes sample_state)) as Hdel
    by (repeat constructor; vm_compute; reflexivity).
  assert (files sample_state !! upload_id env_healthy sample_state = None)
    as Hnew by (vm_compute; reflexivity).
  split_and!; [exact Hok|exact Hdel|exact Hnew|].
  exact (proj2 (upload_then_delete lib_sample env_healthy env_unreachable
                  "a.txt" [Byte.x61] sample_state Hok Hdel) Hnew).
Defined.

(** X12.  With at least one configured node and every upload request
    built, an upload that no node acknowledged is answered 201, but a
    [/nearest/] for its id right afterwards is answered 503: the record is
    there and has no replica. *)
Theorem unacknowledged_upload_is_unavailable math lib E filename data s :
  nodes s ≠ [] →
  replicable lib (nodes s) →
  Forall (λ r, r ≠ Resp 201)
         (replies_from E (upload_id E s) filename data (S (tick s)) (nodes s)) →
  let r1 := handle_upload lib E (Some (filename, data)) s in
  r1.1 = Some (WriteHeader 201)
  ∧ handle_nearest math ("/nearest/" +:+ upload_id E s) r1.2
    = (Error "file not replicated yet" 503, r1.2).
Proof.
  intros Hn Hns Hfail r1. subst r1. rewrite handle_upload_run by done. simpl.
  split; [done|]. run. rewrite TrimPrefix_app.
  destruct (nodes s) as [|n0 rest]; [done|].
  rewrite lookup_insert_eq. simpl. by rewrite acknowledged_none.
Qed.

Lemma unacknowledged_upload_is_unavailable_sample :
  nodes (fresh [sgp; fra]) ≠ []
  ∧ replicable lib_sample (nodes (fresh [sgp; fra]))
  ∧ handle_nearest math_small_angle
      ("/nearest/" +:+ upload_id env_unreachable (fresh [sgp; fra]))
      (handle_upload lib_sample env_unreachable (Some ("a.txt", [Byte.x61]))
         (fresh [sgp; fra])).2
    = (Error "file not replicated yet" 503,
       (handle_upload lib_sample env_unreachable (Some ("a.txt", [Byte.x61]))
          (fresh [sgp; fra])).2).
Proof.
  assert (nodes (fresh [sgp; fra]) ≠ []) as Hn by done.
  assert (replicable lib_sample (nodes (fresh [sgp; fra]))) as Hns
    by (by repeat constructor).
  split_and!; [exact Hn|exact Hns|].
  refine (proj2 (unacknowledged_upload_is_unavailable math_small_angle
                   lib_sample env_unreachable "a.txt" [Byte.x61]
                   (fresh [sgp; fra]) Hn Hns _)).
  repeat constructor; discriminate.
Defined.

(** ** The metadata file *)

(** X13.  A failing write of the metadata file is invisible to the client
    and to the in-memory state: two environments that differ only in
    how writes end give the same response, the same [files] and the same
    requests to the nodes, for every call. *)
Theorem write_failures_are_invisible math lib E E' c s :
  now E = now E' →
  respond E = respond E' →
  (serve math lib E c s).1 = (serve math lib E' c s).1
  ∧ files (serve math lib E c s).2 = files (serve math lib E' c s).2
  ∧ sent (serve math lib E c s).2 = sent (serve math lib E' c s).2.
Proof.
  destruct E as [n r w], E' as [n' r' w']. simpl. intros <- <-.
  destruct c as [|[[filename data]|]|path|path|path]; cbn [serve]; try done.
  - destruct (replicable_split lib (nodes s))
      as [Hall|(pre & n0 & post & Hns & Hpre & Hbad)].
    + by rewrite !handle_upload_run.
    + by rewrite !(handle_upload_panics lib _ filename data s pre n0 post).
  - destruct (deletable_split lib (TrimPrefix path "/delete/") (nodes s))
      as [Hall|(pre & n0 & post & Hns & Hpre & Hbad)].
    + by rewrite !handle_delete_path_run.
    + by rewrite !(handle_delete_path_panics lib _ path s pre n0 post).
Qed.

Lemma write_failures_are_invisible_sample :
  now env_healthy = now env_disk_full
  ∧ respond env_healthy = respond env_disk_full
  ∧ (handle_upload lib_sample env_disk_full (Some ("a.txt", [Byte.x61]))
       (fresh [sgp; fra])).1 = Some (WriteHeader 201)
  ∧ files (handle_upload lib_sample env_disk_full
             (Some ("a.txt", [Byte.x61])) (fresh [sgp; fra])).2
    = files (handle_upload lib_sample env_healthy
               (Some ("a.txt", [Byte.x61])) (fresh [sgp; fra])).2
  ∧ dbFile (handle_upload lib_sample env_disk_full
              (Some ("a.txt", [Byte.x61])) (fresh [sgp; fra])).2 = Absent.
Proof.
  destruct (write_failures_are_invisible math_small_angle lib_sample
              env_healthy env_disk_full
              (CallUpload (Some ("a.txt", [Byte.x61]))) (fresh [sgp; fra])
              eq_refl eq_refl) as (Hr & Hf & _).
  split_and!; [reflexivity|reflexivity| | |reflexivity].
  - exact (eq_trans (eq_sym Hr) eq_refl).
  - exact (eq_sym Hf).
Defined.

(** ** Invariants of the server *)

(** What a call can be: one that only reads, an upload with a file that is
    answered or panics, a delete that is answered or panics. *)
Lemma serve_cases math lib E c s :
  let s' := (serve math lib E c s).2 in
  s' = s
  ∨ (∃ filename data,
       c = CallUpload (Some (filename, data))
       ∧ replicable lib (nodes s)
       ∧ s' = (handle_upload lib E (Some (filename, data)) s).2)
  ∨ (∃ path,
       c = CallDelete path
       ∧ deletable lib (TrimPrefix path "/delete/") (nodes s)
       ∧ s' = (handle_delete lib E path s).2)
  ∨ (∃ new,
       nodes s' = nodes s ∧ files s' = files s ∧ dbFile s' = dbFile s
       ∧ (tick s ≤ tick s')%nat
       ∧ sent s' = sent s ++ new
       ∧ Forall (to_configured_node (nodes s)) new).
Proof.
  assert (∀ ns pre n post (f : StorageNode.t → Request),
            ns = pre ++ n :: post →
            (∀ x, x ∈ ns → to_configured_node ns (f x)) →
            Forall (to_configured_node ns) (map f pre)) as Hpart.
  { intros ns pre n post f -> Hf. apply Forall_forall. intros req Hreq.
    apply list_elem_of_fmap in Hreq as (x & -> & Hx).
    apply Hf. apply elem_of_app. by left. }
  destruct c as [|[[filename data]|]|path|path|path]; cbn [serve].
  - by left.
  - destruct (replicable_split lib (nodes s))
      as [Hall|(pre & n & post & Hns & Hpre & Hbad)].
    + right. left. by exists filename, data.
    + do 3 right.
      rewrite (handle_upload_panics lib E filename data s pre n post) by done.
      simpl. eexists. split_and!; [done|done|done|lia|done|].
      apply (Hpart _ _ _ _ _ Hns). intros x Hx. exists x. split; [done|].
      by left.
  - by left.
  - left. run. destruct (nodes s) as [|n0 rest]; [done|].
    destruct (files s !! _) as [meta|]; [|done].
    destruct (length (FileMeta.Replicated meta) =? 0)%nat; [done|].
    by destruct (fold_left _ _ _).
  - left. run. by destruct (nodes s).
  - destruct (deletable_split lib (TrimPrefix path "/delete/") (nodes s))
      as [Hall|(pre & n & post & Hns & Hpre & Hbad)].
    + right. right. left. by exists path.
    + do 3 right.
      rewrite (handle_delete_path_panics lib E path s pre n post) by done.
      simpl. eexists. split_and!; [done|done|done|lia|done|].
      apply (Hpart _ _ _ _ _ Hns). intros x Hx. exists x. split; [done|].
      right. split; [done|]. by eexists.
Qed.

Lemma replicate_requests_to_configured ns id filename data :
  Forall (to_configured_node ns)
         (map (λ n, replicate_request n id filename data) ns).
Proof.
  apply Forall_forall. intros req Hreq.
  apply list_elem_of_fmap in Hreq as (n & -> & Hn).
  exists n. split; [done|]. by left.
Qed.

Lemma delete_requests_to_configured ns id :
  Forall (to_configured_node ns) (map (λ n, delete_request n id) ns).
Proof.
  apply Forall_forall. intros req Hreq.
  apply list_elem_of_fmap in Hreq as (n & -> & Hn).
  exists n. split; [done|]. right. split; [done|]. by exists id.
Qed.

Lemma upload_record_ok E filename data s :
  record_ok (nodes s) (upload_id E s)
    (FileMeta.mk (upload_id E s) filename (Z.of_nat (length data))
       (acknowledged (nodes s)
          (replies_from E (upload_id E s) filename data (S (tick s))
             (nodes s))) "").
Proof.
  split_and!; simpl; [done|by eexists|lia|apply acknowledged_sublist|done].
Qed.

(** What one call does to the state. *)
Lemma serve_step math lib E c s :
  let s' := (serve math lib E c s).2 in
  nodes s' = nodes s
  ∧ (tick s ≤ tick s')%nat
  ∧ (∃ new, sent s' = sent s ++ new
            ∧ Forall (to_configured_node (nodes s)) new)
  ∧ (files_ok s → files_ok s')
  ∧ ((∀ k, write E k = WriteOk) →
     dbFile s' = Doc (reread lib (files s'))
     ∨ dbFile s' = dbFile s ∧ files s' = files s).
Proof.
  destruct (serve_cases math lib E c s)
    as [->|[(filename & data & -> & Hns & ->)
           |[(path & -> & Hns & ->)
            |(new & Hn & Hf & Hd & Ht & Hs & Hnew)]]].
  - split_and!; [done|done| |done|by right].
    exists []. by rewrite app_nil_r.
  - rewrite handle_upload_run by done. simpl. split_and!; [done|lia| | |].
    + eexists. split; [done|]. apply replicate_requests_to_configured.
    + unfold files_ok. simpl. intros Hok k r.
      rewrite lookup_insert. case_decide as Hk.
      * intros [= <-]. rewrite <- Hk. apply upload_record_ok.
      * apply Hok.
    + intros Hw. left. by rewrite Hw.
  - rewrite handle_delete_path_run by done. simpl.
    split_and!; [done|lia| | |].
    + eexists. split; [done|]. apply delete_requests_to_configured.
    + unfold files_ok. simpl. intros Hok k r Hk.
      apply lookup_delete_Some in Hk as [_ Hk]. by apply Hok.
    + intros Hw. left. by rewrite Hw.
  - split_and!; [done|done|by exists new| |by right].
    unfold files_ok. by rewrite Hn, Hf.
Qed.

Lemma serve_all_cons math lib E c cs s :
  serve_all math lib E (c :: cs) s
  = ((serve math lib E c s).1
       :: (serve_all math lib E cs (serve math lib E c s).2).1,
     (serve_all math lib E cs (serve math lib E c s).2).2).
Proof.
  simpl. unfold mbind, M_bind, mret, M_ret.
  destruct (serve math lib E c s) as [r s1]. simpl.
  by destruct (serve_all math lib E cs s1).
Qed.

(** What a list of calls does to the state. *)
Lemma serve_all_steps math lib E cs s :
  let s' := (serve_all math lib E cs s).2 in
  nodes s' = nodes s
  ∧ (tick s ≤ tick s')%nat
  ∧ (∃ new, sent s' = sent s ++ new
            ∧ Forall (to_configured_node (nodes s)) new)
  ∧ (files_ok s → files_ok s')
  ∧ ((∀ k, write E k = WriteOk) →
     dbFile s' = Doc (reread lib (files s'))
     ∨ dbFile s' = dbFile s ∧ files s' = files s).
Proof.
  revert s. induction cs as [|c cs IH]; intros s.
  - simpl. split_and!; [done|done| |done|by right].
    exists []. by rewrite app_nil_r.
  - rewrite serve_all_cons. cbn [snd].
    destruct (serve_step math lib E c s)
      as (Hn1 & Ht1 & (new1 & Hs1 & Hc1) & Hok1 & Hd1).
    destruct (IH (serve math lib E c s).2)
      as (Hn2 & Ht2 & (new2 & Hs2 & Hc2) & Hok2 & Hd2).
    split_and!.
    + by rewrite Hn2.
    + lia.
    + exists (new1 ++ new2). rewrite Hs2, Hs1, app_assoc. split; [done|].
      apply Forall_app. split; [done|]. by rewrite <- Hn1.
    + auto.
    + intros Hw. destruct (Hd2 Hw) as [Hd|[Hd Hf]]; [by left|].
      destruct (Hd1 Hw) as [Hd'|[Hd' Hf']].
      * left. by rewrite Hd, Hf.
      * right. split; congruence.
Qed.

(** X14.  The node list is read-only and the log of requests only grows:
    after any list of calls [nodes] is what it was and every request sent
    before is still in the log in the same place. *)
Theorem serving_keeps_the_nodes math lib E cs s :
  let r := serve_all math lib E cs s in
  nodes r.2 = nodes s
  ∧ sent s `prefix_of` sent r.2.
Proof.
  intros r. subst r.
  destruct (serve_all_steps math lib E cs s) as (Hn & _ & (new & Hs & _) & _).
  split; [done|by exists new].
Qed.

(** X15.  The coordinator talks to configured nodes only: every request
    sent while serving any list of calls is the upload loop's [POST] to
    [URL/replicate] or the delete loop's [DELETE] to [URL/delete/{id}] of a
    node in [nodes]. *)
Theorem only_configured_nodes_are_contacted math lib E cs s req :
  req ∈ sent (serve_all math lib E cs s).2 →
  req ∈ sent s ∨ to_configured_node (nodes s) req.
Proof.
  destruct (serve_all_steps math lib E cs s) as (_ & _ & (new & -> & Hc) & _).
  intros [Hin|Hin]%elem_of_app; [by left|right].
  by apply (proj1 (Forall_forall _ _) Hc).
Qed.

Lemma only_configured_nodes_are_contacted_sample :
  let cs := [CallUpload (Some ("a.txt", [Byte.x61])); CallDelete "/delete/7"] in
  let req := mkRequest "DELETE" "http://fra.example:9001/delete/7" NoBody in
  req ∈ sent (serve_all math_small_angle lib_sample env_healthy cs
                sample_state).2
  ∧ (req ∈ sent sample_state ∨ to_configured_node (nodes sample_state) req).
Proof.
  intros cs req.
  assert (req ∈ sent (serve_all math_small_angle lib_sample env_healthy cs
                        sample_state).2) as Hin.
  { vm_compute. do 3 apply list_elem_of_further. apply list_elem_of_here. }
  split; [exact Hin|].
  exact (only_configured_nodes_are_contacted math_small_angle lib_sample
           env_healthy cs sample_state req Hin).
Defined.

(** X16.  Every record that the running server can hold is well formed:
    starting from [main], after any list of calls in any environment, each
    record of [files] is stored under its own [ID], which is a decimal
    integer, has a non-negative [Size], an empty [CreatedAt], and a
    [Replicated] list that is a sublist of the configured node ids. *)
Theorem records_of_a_run_are_well_formed math lib E ns db cs s0 :
  main (Doc ns) db = Some s0 →
  files_ok (serve_all math lib E cs s0).2.
Proof.
  intros [= <-].
  destruct (serve_all_steps math lib E cs (mkState ns ∅ db 0 []))
    as (_ & _ & _ & Hok & _).
  apply Hok. unfold files_ok. simpl. apply map_Forall_empty.
Qed.

Lemma records_of_a_run_are_well_formed_sample :
  main (Doc [sgp; fra]) Absent = Some (fresh [sgp; fra])
  ∧ files_ok (serve_all math_small_angle lib_sample env_sgp_down
                [CallUpload (Some ("a.txt", [Byte.x61]));
                 CallUpload (Some ("b.txt", []));
                 CallDelete "/delete/1700000000000000000"]
                (fresh [sgp; fra])).2.
Proof.
  split; [reflexivity|].
  exact (records_of_a_run_are_well_formed math_small_angle lib_sample
           env_sgp_down [sgp; fra] Absent _ (fresh [sgp; fra]) eq_refl).
Defined.

(** X17.  When every write succeeds, the metadata file is never stale:
    after any list of calls the file is what [json.MarshalIndent] writes
    for the current [files] (read back, [reread] of it), unless no upload
    or delete has got as far as writing, in which case both the file and
    the map are what they were. *)
Theorem the_file_follows_the_map math lib E cs s :
  (∀ k, write E k = WriteOk) →
  let s' := (serve_all math lib E cs s).2 in
  dbFile s' = Doc (reread lib (files s'))
  ∨ dbFile s' = dbFile s ∧ files s' = files s.
Proof.
  intros Hw s'. subst s'.
  destruct (serve_all_steps math lib E cs s) as (_ & _ & _ & _ & Hd). auto.
Qed.

Lemma the_file_follows_the_map_sample :
  (∀ k, write env_sgp_down k = WriteOk)
  ∧ dbFile (serve_all math_small_angle lib_sample env_sgp_down
              [CallUpload (Some ("a.txt", [Byte.x61])); CallDelete "/delete/7"]
              sample_state).2
    = Doc (files (serve_all math_small_angle lib_sample env_sgp_down
                    [CallUpload (Some ("a.txt", [Byte.x61]));
                     CallDelete "/delete/7"]
                    sample_state).2).
Proof.
  assert (∀ k, write env_sgp_down k = WriteOk) as Hw by done.
  split; [exact Hw|].
  destruct (the_file_follows_the_map math_small_angle lib_sample env_sgp_down
              [CallUpload (Some ("a.txt", [Byte.x61])); CallDelete "/delete/7"]
              sample_state Hw) as [Hd|[Hd _]]; [exact Hd|].
  vm_compute in Hd. discriminate Hd.
Defined.



(** ** Upload and delete when every request can be built *)

(** X20.  When every request of the upload can be built and no configured
    node answers 201 (transport errors and other statuses alike), the
    upload still answers 201 Created and the record it stores has an empty
    [Replicated]. *)
Theorem upload_succeeds_when_every_node_fails lib E filename data s :
  replicable lib (nodes s) →
  Forall (λ r, r ≠ Resp 201)
         (replies_from E (upload_id E s) filename data (S (tick s)) (nodes s)) →
  ∃ s', handle_upload lib E (Some (filename, data)) s
        = (Some (WriteHeader 201), s')
        ∧ StatusCode (WriteHeader 201) = 201
        ∧ files s' !! upload_id E s
          = Some (FileMeta.mk (upload_id E s) filename
                    (Z.of_nat (length data)) [] "").
Proof.
  intros Hns Hfail. rewrite handle_upload_run by done.
  eexists. split; [done|].
  split; [done|]. simpl. rewrite lookup_insert_eq.
  by rewrite acknowledged_none.
Qed.

Lemma upload_unreachable_cluster_sample :
  replicable lib_sample (nodes (fresh [sgp; fra]))
  ∧ Forall (λ r, r ≠ Resp 201)
         (replies_from env_unreachable
            (upload_id env_unreachable (fresh [sgp; fra])) "a.txt" [Byte.x61]
            (S (tick (fresh [sgp; fra]))) (nodes (fresh [sgp; fra])))
  ∧ ∃ s', handle_upload lib_sample env_unreachable
            (Some ("a.txt", [Byte.x61])) (fresh [sgp; fra])
          = (Some (WriteHeader 201), s')
          ∧ StatusCode (WriteHeader 201) = 201
          ∧ files s' !! upload_id env_unreachable (fresh [sgp; fra])
            = Some (FileMeta.mk (upload_id env_unreachable (fresh [sgp; fra]))
                      "a.txt" 1 [] "").
Proof.
  assert (replicable lib_sample (nodes (fresh [sgp; fra]))) as Hns
    by (by repeat constructor).
  assert (Forall (λ r, r ≠ Resp 201)
            (replies_from env_unreachable
               (upload_id env_unreachable (fresh [sgp; fra])) "a.txt"
               [Byte.x61] (S (tick (fresh [sgp; fra])))
               (nodes (fresh [sgp; fra])))) as Hfail
    by (repeat constructor; discriminate).
  split_and!; [exact Hns|exact Hfail|].
  exact (upload_succeeds_when_every_node_fails
           lib_sample env_unreachable "a.txt" [Byte.x61] (fresh [sgp; fra])
           Hns Hfail).
Defined.

(** X21.  When every request of the upload can be built, replication is
    per node: every configured node is sent its own request, in order,
    whatever the other nodes answered, and the [Replicated] list of the
    stored record holds an id exactly when it is the id of a node whose own
    reply was a 201. *)
Theorem upload_acknowledgments_per_node lib E filename data s :
  replicable lib (nodes s) →
  let id := upload_id E s in
  let replies := replies_from E id filename data (S (tick s)) (nodes s) in
  let s' := (handle_upload lib E (Some (filename, data)) s).2 in
  sent s' = sent s ++ map (λ n, replicate_request n id filename data) (nodes s)
  ∧ FileMeta.Replicated <$> files s' !! id
    = Some (acknowledged (nodes s) replies)
  ∧ ∀ x, x ∈ acknowledged (nodes s) replies
         ↔ ∃ i n, nodes s !! i = Some n
                  ∧ respond E (S (tick s) + i)
                      (replicate_request n id filename data) = Resp 201
                  ∧ StorageNode.ID n = x.
Proof.
  intros Hns id replies s'. subst s'. rewrite handle_upload_run by done.
  simpl. split_and!.
  - done.
  - by rewrite lookup_insert_eq.
  - intros x. apply elem_of_acknowledged.
Qed.

Lemma upload_acknowledgments_per_node_sample :
  replicable lib_sample (nodes (fresh [sgp; fra]))
  ∧ FileMeta.Replicated
      <$> files (handle_upload lib_sample env_sgp_down
                   (Some ("a.txt", [Byte.x61])) (fresh [sgp; fra])).2
          !! upload_id env_sgp_down (fresh [sgp; fra])
    = Some ["fra"].
Proof.
  assert (replicable lib_sample (nodes (fresh [sgp; fra]))) as Hns
    by (by repeat constructor).
  split; [exact Hns|].
  exact (proj1 (proj2 (upload_acknowledgments_per_node lib_sample env_sgp_down
                         "a.txt" [Byte.x61] (fresh [sgp; fra]) Hns))).
Defined.

(** X22.  When every delete request can be built, then whatever the nodes
    answer the handler answers with the confirmation, [files] has no entry
    for the id afterwards, and when there was none before [files] is
    unchanged. *)
Theorem delete_removes_unconditionally lib E id s :
  deletable lib id (nodes s) →
  ∃ s', handle_delete lib E ("/delete/" +:+ id) s
        = (Some (WriteBody "deleted"), s')
        ∧ StatusCode (WriteBody "deleted") = 200
        ∧ files s' !! id = None
        ∧ (files s !! id = None → files s' = files s).
Proof.
  intros Hns. rewrite handle_delete_run by done.
  eexists. split; [done|]. simpl.
  split_and!; [done| |].
  - apply lookup_delete_eq.
  - apply delete_id.
Qed.

Lemma delete_unknown_id_sample :
  deletable lib_sample "never-uploaded" (nodes sample_state)
  ∧ files sample_state !! "never-uploaded" = None
  ∧ ∃ s', handle_delete lib_sample env_unreachable "/delete/never-uploaded"
            sample_state
          = (Some (WriteBody "deleted"), s')
        ∧ files s' !! "never-uploaded" = None
        ∧ files s' = files sample_state.
Proof.
  assert (deletable lib_sample "never-uploaded" (nodes sample_state)) as Hns
    by (by repeat constructor).
  assert (files sample_state !! "never-uploaded" = None) as Hnone
    by reflexivity.
  split_and!; [exact Hns|exact Hnone|].
  destruct (delete_removes_unconditionally
              lib_sample env_unreachable "never-uploaded" sample_state Hns)
    as (s' & Hrun & _ & Hgone & Hsame).
  exists s'. split_and!; [exact Hrun|exact Hgone|exact (Hsame Hnone)].
Defined.

(** ** [loadDB] *)

(** X18.  [loadDB] never reports a failure: with a missing or malformed
    file the state is unchanged; the document [null] empties [files]; with
    any other document that decodes, fully or in part, a key of the
    document gets the document's record and any other key keeps the record
    it had; and loading twice is the same as loading once. *)
Theorem loadDB_merges_the_file s :
  (dbFile s = Absent ∨ dbFile s = Malformed → loadDB s = (tt, s))
  ∧ (dbFile s = Null → files (loadDB s).2 = ∅)
  ∧ (∀ m k, dbFile s = Doc m ∨ dbFile s = Mistyped m →
            files (loadDB s).2 !! k
            = match m !! k with Some r => Some r | None => files s !! k end)
  ∧ (loadDB (loadDB s).2).2 = (loadDB s).2.
Proof.
  rewrite !loadDB_run. split_and!.
  - by intros [-> | ->]; destruct s.
  - by intros ->.
  - intros m k [-> | ->]; simpl; rewrite lookup_union;
      by destruct (m !! k), (files s !! k).
  - simpl. destruct (dbFile s) as [| | |m|m] eqn:Hd; simpl; rewrite ?Hd;
      try done; unfold set_files; simpl; f_equal;
      by rewrite (assoc_L (∪)), (idemp_L (∪) m).
Qed.

Lemma loadDB_merges_the_file_sample :
  dbFile (set_dbFile (Doc {["7" := stray]}) sample_state)
  = Doc {["7" := stray]}
  ∧ files (loadDB (set_dbFile (Doc {["7" := stray]}) sample_state)).2 !! "7"
    = Some stray
  ∧ files (loadDB (set_dbFile (Doc {["7" := stray]}) sample_state)).2 !! "8"
    = Some stray
  ∧ loadDB sample_state = (tt, sample_state)
  ∧ files (loadDB (set_dbFile Null sample_state)).2 = ∅.
Proof.
  destruct (loadDB_merges_the_file
              (set_dbFile (Doc {["7" := stray]}) sample_state))
    as (_ & _ & Hmerge & _).
  split_and!; [reflexivity| | | |].
  - exact (Hmerge {["7" := stray]} "7" (or_introl eq_refl)).
  - exact (Hmerge {["7" := stray]} "8" (or_introl eq_refl)).
  - exact (proj1 (loadDB_merges_the_file sample_state) (or_introl eq_refl)).
  - exact (proj1 (proj2 (loadDB_merges_the_file
                           (set_dbFile Null sample_state))) eq_refl).
Defined.
(** ** [haversine] on one point *)

Lemma is_finite_Prim2SF x :
  is_finite x = true →
  (∃ s, Prim2SF x = S754_zero s) ∨ (∃ s m e, Prim2SF x = S754_finite s m e).
Proof.
  unfold is_finite, is_nan, is_infinity.
  rewrite !FloatAxioms.eqb_spec, abs_spec.
  change (Prim2SF infinity) with (S754_infinity false).
  destruct (Prim2SF x) as [s|s| |s m e]; simpl; eauto.
  - by destruct s.
  - done.
Qed.

Lemma sub_diag_finite x : is_finite x = true → (x - x)%float = 0%float.
Proof.
  intros Hx. rewrite <- (SF2Prim_Prim2SF (x - x)), sub_spec.
  destruct (is_finite_Prim2SF x Hx) as [[s ->]|(s & m & e & ->)].
  - by destruct s.
  - unfold SF64sub, SFsub. by rewrite Z.sub_diag.
Qed.

(** A zero of either sign times a finite number is a zero. *)
Lemma mul_zero_finite z c :
  z = 0%float ∨ z = (-0)%float →
  is_finite c = true →
  (z * c)%float = 0%float ∨ (z * c)%float = (-0)%float.
Proof.
  intros Hz Hc. rewrite <- (SF2Prim_Prim2SF (z * c)), mul_spec.
  destruct (is_finite_Prim2SF c Hc) as [[s ->]|(s & m & e & ->)];
    destruct Hz as [-> | ->], s; vm_compute; auto.
Qed.

(** The root in the distance from a point to itself: both differences are
    0, so both sines are, and the sum under the root is 0 + 0 or 0 + -0. *)
Lemma haversine_diag_root math lat lon :
  Sin math 0%float = 0%float →
  is_finite lat = true →
  is_finite lon = true →
  is_finite (Cos math (lat * Pi / 180)%float) = true →
  sqrt (Sin math ((lat - lat) * Pi / 180 / 2)
        * Sin math ((lat - lat) * Pi / 180 / 2)
        + Sin math ((lon - lon) * Pi / 180 / 2)
          * Sin math ((lon - lon) * Pi / 180 / 2)
          * Cos math (lat * Pi / 180) * Cos math (lat * Pi / 180))%float
  = 0%float.
Proof.
  intros HS Hlat Hlon HC.
  rewrite !sub_diag_finite by done.
  change (0 * Pi / 180 / 2)%float with 0%float. rewrite HS.
  change (0 * 0)%float with 0%float.
  destruct (mul_zero_finite
              (0 * Cos math (lat * Pi / 180))%float
              (Cos math (lat * Pi / 180)%float)) as [-> | ->];
    [apply mul_zero_finite; [by left|done] | done | |]; reflexivity.
Qed.

(** X19.  The distance from a point with finite coordinates to itself is
    exactly 0, for every math library in which [Sin] and [Asin] map 0 to 0
    and [Cos] of the latitude in radians is finite. *)
Theorem haversine_same_point math lat lon :
  Sin math 0%float = 0%float →
  Asin math 0%float = 0%float →
  is_finite lat = true →
  is_finite lon = true →
  is_finite (Cos math (lat * Pi / 180)%float) = true →
  haversine math lat lon lat lon = 0%float.
Proof.
  intros HS HA Hlat Hlon HC. unfold haversine. cbv zeta.
  rewrite haversine_diag_root by done.
  rewrite HA. reflexivity.
Qed.

Lemma haversine_same_point_sample :
  is_finite 1.29%float = true
  ∧ is_finite 103.85%float = true
  ∧ is_finite (Cos math_small_angle (1.29 * Pi / 180)%float) = true
  ∧ haversine math_small_angle 1.29%float 103.85%float 1.29%float 103.85%float
    = 0%float.
Proof.
  split_and!; [reflexivity|reflexivity|reflexivity|].
  exact (haversine_same_point math_small_angle 1.29%float 103.85%float
           eq_refl eq_refl eq_refl eq_refl eq_refl).
Defined.

(** ** [haversine] with its arguments swapped *)


















(** The order of the two cosines under the root matters to the last digits:
    with a polynomial for [Cos] the distances between (12.5, 0) and
    (37.25, 90) in the two directions differ. *)
Example haversine_order_of_cosines :
  haversine math_polynomial 12.5%float 0%float 37.25%float 90%float
  = 9202.1436381787735%float
  ∧ haversine math_polynomial 37.25%float 90%float 12.5%float 0%float
    = 9202.1436381787753%float
  ∧ float_eq
      (haversine math_polynomial 12.5%float 0%float 37.25%float 90%float)
      (haversine math_polynomial 37.25%float 90%float 12.5%float 0%float)
    = false.
Proof. by vm_compute. Qed.


